(** * Reconciliation of scraped subscribers against the customer table

    A shallow embedding of [supabase_integration.py] (name matcher, single
    record update, synchronisation pass) and of [normalize_status] from
    [cashbarber_extractor.py], with the properties of the specification
    stated and proved over it.

    Conventions of the embedding.
    - Python [str] is [string]; [str.lower], [str.strip] and
      [difflib.SequenceMatcher(None, a, b).ratio()] are routines of the Python
      standard library, so the matcher takes them as parameters.  Executable
      ASCII models of the three are given in [Module Py] and are used only
      to run the code on concrete inputs.
    - A Python [float] that is only ever compared is a rational: similarity
      ratios and thresholds are [Q], [>] is [Qgt_bool], [>=] is [Qle_bool]
      with swapped arguments.
    - Python [dict]s are [gmap string string].
    - The Supabase client is an external service: it is a record of two
      operations over an abstract service state.  A call that raises is
      [Raised]; every call is appended to a trace, together with the
      match / no-match log lines of the pass. *)

From Stdlib Require Import QArith Ascii String.
From stdpp Require Import gmap strings list.

Open Scope string_scope.
Open Scope list_scope.

(** ** Data model *)

(** [@dataclass class ClienteSupabase]. *)
Module ClienteSupabase.
Record t : Type := make {
  id : string;
  nome : string;
  telefone : option string;
  plano_atual : option string;
  status_assinatura : option string
}.
End ClienteSupabase.

(** [@dataclass class Assinante]; [to_dict] produces the dictionaries with
    the keys [nome], [plano], [status], [data_criacao] that
    [sync_assinantes] reads. *)
Module Assinante.
Record t : Type := make {
  nome : string;
  plano : string;
  status : string;
  data_criacao : string
}.
End Assinante.

(** Outcome of a call that may raise. *)
Inductive outcome (A : Type) : Type :=
  | Returned (a : A)
  | Raised.
Arguments Returned {A} a.
Arguments Raised {A}.

(** ** cashbarber_extractor.py: [normalize_status] *)

Definition status_map : gmap string string :=
  <["Pendente" := "pendente"]>
    (<["Cancelado" := "cancelado"]>
      (<["Pagamento recusado" := "inadimplente"]>
        (<["Em dia" := "ativo"]> ∅))).

(** [status_map.get(status, 'desconhecido')] *)
Definition normalize_status (status : string) : string :=
  default "desconhecido" (status_map !! status).

(** ** supabase_integration.py: [find_cliente_by_name] *)

(** [a > b] on floats. *)
Definition Qgt_bool (a b : Q) : bool := negb (Qle_bool a b).

(** What one iteration of the [for cliente in clientes] loop does: leave the
    function with a client, or go on with the running best. *)
Inductive scan_result : Type :=
  | Return (cliente : ClienteSupabase.t)
  | Continue (best_match : option ClienteSupabase.t) (best_ratio : Q).

Section Matcher.
Variable lower : string → string.
Variable strip : string → string.
Variable ratio : string → string → Q.

(** [s.lower().strip()] *)
Definition lower_strip (s : string) : string := strip (lower s).

(** Body of the loop. *)
Definition scan_step (nome_busca_lower : string)
    (best_match : option ClienteSupabase.t) (best_ratio : Q)
    (cliente : ClienteSupabase.t) : scan_result :=
  let nome_cliente_lower := lower_strip (ClienteSupabase.nome cliente) in
  if String.eqb nome_busca_lower nome_cliente_lower then Return cliente
  else
    let r := ratio nome_busca_lower nome_cliente_lower in
    if Qgt_bool r best_ratio then Continue (Some cliente) r
    else Continue best_match best_ratio.

(** The loop. *)
Fixpoint scan (nome_busca_lower : string) (clientes : list ClienteSupabase.t)
    (best_match : option ClienteSupabase.t) (best_ratio : Q) : scan_result :=
  match clientes with
  | [] => Continue best_match best_ratio
  | cliente :: rest =>
      match scan_step nome_busca_lower best_match best_ratio cliente with
      | Return c => Return c
      | Continue bm br => scan nome_busca_lower rest bm br
      end
  end.

Definition find_cliente_by_name (nome_busca : string)
    (clientes : list ClienteSupabase.t) (threshold : Q)
    : option ClienteSupabase.t :=
  let nome_busca_lower := lower_strip nome_busca in
  match scan nome_busca_lower clientes None 0 with
  | Return c => Some c
  | Continue best_match best_ratio =>
      if Qle_bool threshold best_ratio then best_match else None
  end.

(** Vocabulary of the statements about the matcher. *)

(** Similarity of a client's name to the query. *)
Definition score (nome_busca : string) (c : ClienteSupabase.t) : Q :=
  ratio (lower_strip nome_busca) (lower_strip (ClienteSupabase.nome c)).

Definition exact (nome_busca : string) (c : ClienteSupabase.t) : Prop :=
  lower_strip nome_busca = lower_strip (ClienteSupabase.nome c).

Definition no_exact (nome_busca : string)
    (clientes : list ClienteSupabase.t) : Prop :=
  Forall (λ c, ¬ exact nome_busca c) clientes.

(** [c] sits in [clientes] at the first position where the maximal score
    is attained: strictly better than everything before it, at least as
    good as everything after it. *)
Definition first_best (nome_busca : string)
    (clientes : list ClienteSupabase.t) (c : ClienteSupabase.t) : Prop :=
  ∃ before after,
    clientes = before ++ c :: after
    ∧ Forall (λ x, (score nome_busca x < score nome_busca c)%Q) before
    ∧ Forall (λ x, (score nome_busca x <= score nome_busca c)%Q) after.

(** The same, with a tie: some later client attains [c]'s score too, so
    two or more clients attain the maximal score and [c] is the first of
    them. *)
Definition first_of_tied_best (nome_busca : string)
    (clientes : list ClienteSupabase.t) (c : ClienteSupabase.t) : Prop :=
  ∃ before after,
    clientes = before ++ c :: after
    ∧ Forall (λ x, (score nome_busca x < score nome_busca c)%Q) before
    ∧ Forall (λ x, (score nome_busca x <= score nome_busca c)%Q) after
    ∧ Exists (λ x, (score nome_busca x == score nome_busca c)%Q) after.
End Matcher.

(** The default of the [threshold] argument, [0.85]. *)
Definition default_threshold : Q := 85 # 100.

(** ** supabase_integration.py: the client, [update_cliente],
       [get_all_clientes], [sync_assinantes] *)

(** The fields [__init__] stores on [self] (the credentials are not
    modelled). *)
Module SupabaseIntegration.
Record t : Type := make {
  table_name : string;
  column_nome : string;
  column_plano : string;
  column_status : string
}.
End SupabaseIntegration.

(** The two request chains the module sends through [self.client], over the
    state [W] of the hosted service:
    [table(t).select('*').execute()] and
    [table(t).update(data).eq('id', i).execute()]. *)
Record Client (W : Type) : Type := {
  select_all : string → W → outcome (list (gmap string string)) * W;
  update_eq_id : string → gmap string string → string → W → outcome unit * W
}.
Arguments select_all {W} _ _ _.
Arguments update_eq_id {W} _ _ _ _ _.

(** What a run lets the outside observe: requests to the service, with
    whether an update went through, and the two per-record log lines of the
    pass. *)
Inductive event : Type :=
  | DbSelect (table : string)
  | DbUpdate (table : string) (update_data : gmap string string)
             (cliente_id : string) (ok : bool)
  | LogMatch (nome cliente_nome : string)
  | LogNotFound (nome : string).

Record state (W : Type) : Type := mk_state {
  service : W;
  trace : list event
}.
Arguments mk_state {W} _ _.
Arguments service {W} _.
Arguments trace {W} _.

(** The [stats] dictionary of [sync_assinantes]. *)
Record Stats : Type := mk_stats {
  total_cashbarber : nat;
  total_supabase : nat;
  encontrados : nat;
  atualizados : nat;
  nao_encontrados : nat;
  erros : nat;
  nao_encontrados_lista : list string
}.

Definition inc_encontrados (s : Stats) : Stats :=
  mk_stats (total_cashbarber s) (total_supabase s) (encontrados s + 1)
    (atualizados s) (nao_encontrados s) (erros s) (nao_encontrados_lista s).

Definition inc_atualizados (s : Stats) : Stats :=
  mk_stats (total_cashbarber s) (total_supabase s) (encontrados s)
    (atualizados s + 1) (nao_encontrados s) (erros s) (nao_encontrados_lista s).

Definition inc_erros (s : Stats) : Stats :=
  mk_stats (total_cashbarber s) (total_supabase s) (encontrados s)
    (atualizados s) (nao_encontrados s) (erros s + 1) (nao_encontrados_lista s).

(** [stats['nao_encontrados'] += 1; stats['nao_encontrados_lista'].append(nome)] *)
Definition add_nao_encontrado (nome : string) (s : Stats) : Stats :=
  mk_stats (total_cashbarber s) (total_supabase s) (encontrados s)
    (atualizados s) (nao_encontrados s + 1) (erros s)
    (nao_encontrados_lista s ++ [nome]).

(** Projections of a trace. *)
Definition is_update (e : event) : bool :=
  match e with DbUpdate _ _ _ _ => true | _ => false end.

Definition is_request (e : event) : bool :=
  match e with DbSelect _ | DbUpdate _ _ _ _ => true | _ => false end.

Definition update_succeeded (e : event) : bool :=
  match e with DbUpdate _ _ _ ok => ok | _ => false end.

Definition update_failed (e : event) : bool :=
  match e with DbUpdate _ _ _ ok => negb ok | _ => false end.

(** The writes of a run, in order: table, fields, key. *)
Definition writes (tr : list event)
    : list (string * gmap string string * string) :=
  omap (λ e, match e with
             | DbUpdate t d i _ => Some (t, d, i)
             | _ => None
             end) tr.

(** Whether each update request of a run went through, in order. *)
Definition outcomes (tr : list event) : list bool :=
  omap (λ e, match e with
             | DbUpdate _ _ _ ok => Some ok
             | _ => None
             end) tr.

(** Number of elements satisfying a test. *)
Definition count {A : Type} (f : A → bool) (l : list A) : nat :=
  length (List.filter f l).

(** The per-record decisions of a run, in order: the scraped name and the
    name of the client it was matched to, if any. *)
Definition decisions (tr : list event) : list (string * option string) :=
  omap (λ e, match e with
             | LogMatch n c => Some (n, Some c)
             | LogNotFound n => Some (n, None)
             | _ => None
             end) tr.

Section Sync.
Context {W : Type}.
Variable client : Client W.
Variable getenv : string → option string.
Variable lower : string → string.
Variable strip : string → string.
Variable ratio : string → string → Q.
Variable self : SupabaseIntegration.t.

Definition emit (e : event) (st : state W) : state W :=
  mk_state (service st) (trace st ++ [e]).

(** One element of the comprehension in [get_all_clientes]; [row['id']]
    raises [KeyError] on a row without that key.  The values of a row are
    strings, as the fields of [ClienteSupabase] are declared: a JSON null
    is not represented (a null name would make [cliente.nome.lower()]
    raise in the matcher, after the fetch has returned). *)
Definition row_to_cliente (row : gmap string string)
    : option ClienteSupabase.t :=
  match row !! "id" with
  | Some i =>
      Some (ClienteSupabase.make i
              (default "" (row !! SupabaseIntegration.column_nome self))
              (row !! "telefone")
              (row !! SupabaseIntegration.column_plano self)
              (row !! SupabaseIntegration.column_status self))
  | None => None
  end.

(** The [except] branch logs and re-raises. *)
Definition get_all_clientes (st : state W)
    : outcome (list ClienteSupabase.t) * state W :=
  let table := SupabaseIntegration.table_name self in
  let '(response, w) := select_all client table (service st) in
  let st' := mk_state w (trace st ++ [DbSelect table]) in
  match response with
  | Returned data =>
      match mapM row_to_cliente data with
      | Some clientes => (Returned clientes, st')
      | None => (Raised, st')
      end
  | Raised => (Raised, st')
  end.

(** The dictionary sent by [update_cliente]. *)
Definition update_data_of (plano status : string) (update_timestamp : bool)
    : gmap string string :=
  let update_data :=
    <[SupabaseIntegration.column_status self := status]>
      (<[SupabaseIntegration.column_plano self := plano]> ∅) in
  if update_timestamp then
    let timestamp_column :=
      default "ultima_sincronizacao" (getenv "COLUMN_TIMESTAMP") in
    <[timestamp_column := "now()"]> update_data
  else update_data.

(** One request; [True] when it returns, [False] when it raises. *)
Definition update_cliente (cliente_id plano status : string)
    (update_timestamp : bool) (st : state W) : bool * state W :=
  let table := SupabaseIntegration.table_name self in
  let update_data := update_data_of plano status update_timestamp in
  let '(response, w) :=
    update_eq_id client table update_data cliente_id (service st) in
  match response with
  | Returned _ =>
      (true, mk_state w (trace st ++ [DbUpdate table update_data cliente_id true]))
  | Raised =>
      (false, mk_state w (trace st ++ [DbUpdate table update_data cliente_id false]))
  end.

(** Body of [for assinante in assinantes_cashbarber]. *)
Definition sync_record (clientes_supabase : list ClienteSupabase.t)
    (dry_run : bool) (acc : Stats * state W) (assinante : Assinante.t)
    : Stats * state W :=
  let '(stats, st) := acc in
  let nome := Assinante.nome assinante in
  let plano := Assinante.plano assinante in
  let status := Assinante.status assinante in
  match find_cliente_by_name lower strip ratio nome clientes_supabase
          default_threshold with
  | Some cliente =>
      let stats := inc_encontrados stats in
      let st := emit (LogMatch nome (ClienteSupabase.nome cliente)) st in
      if negb dry_run then
        let '(ok, st) :=
          update_cliente (ClienteSupabase.id cliente) plano status true st in
        if ok then (inc_atualizados stats, st) else (inc_erros stats, st)
      else (inc_atualizados stats, st)
  | None =>
      (add_nao_encontrado nome stats, emit (LogNotFound nome) st)
  end.

(** The [stats] dictionary before the loop. *)
Definition initial_stats (assinantes_cashbarber : list Assinante.t)
    (clientes_supabase : list ClienteSupabase.t) : Stats :=
  mk_stats (length assinantes_cashbarber) (length clientes_supabase)
    0 0 0 0 [].

Definition sync_assinantes (assinantes_cashbarber : list Assinante.t)
    (dry_run : bool) (st : state W) : outcome Stats * state W :=
  match get_all_clientes st with
  | (Returned clientes_supabase, st) =>
      let '(stats, st) :=
        fold_left (sync_record clientes_supabase dry_run)
          assinantes_cashbarber
          (initial_stats assinantes_cashbarber clientes_supabase, st) in
      (Returned stats, st)
  | (Raised, st) => (Raised, st)
  end.

(** Vocabulary of the statements about the pass, for a snapshot
    [clientes_supabase] of the table. *)

Definition has_match (clientes_supabase : list ClienteSupabase.t)
    (assinante : Assinante.t) : bool :=
  match find_cliente_by_name lower strip ratio (Assinante.nome assinante)
          clientes_supabase default_threshold with
  | Some _ => true
  | None => false
  end.

(** The decision the pass logs for a record. *)
Definition decision (clientes_supabase : list ClienteSupabase.t)
    (assinante : Assinante.t) : string * option string :=
  (Assinante.nome assinante,
   ClienteSupabase.nome <$>
     find_cliente_by_name lower strip ratio (Assinante.nome assinante)
       clientes_supabase default_threshold).

(** The write a live pass requests for a record, if it has a match. *)
Definition write_for (clientes_supabase : list ClienteSupabase.t)
    (assinante : Assinante.t) : option (string * gmap string string * string) :=
  match find_cliente_by_name lower strip ratio (Assinante.nome assinante)
          clientes_supabase default_threshold with
  | Some cliente =>
      Some (SupabaseIntegration.table_name self,
            update_data_of (Assinante.plano assinante)
              (Assinante.status assinante) true,
            ClienteSupabase.id cliente)
  | None => None
  end.

Definition unmatched_names (clientes_supabase : list ClienteSupabase.t)
    (assinantes : list Assinante.t) : list string :=
  Assinante.nome <$>
    List.filter (λ a, negb (has_match clientes_supabase a)) assinantes.

(** How the loop over [assinantes] takes the statistics [s] to [s'] while
    adding the events [evs] to the trace. *)
Definition run_post (clientes_supabase : list ClienteSupabase.t)
    (dry_run : bool) (assinantes : list Assinante.t) (s s' : Stats)
    (evs : list event) : Prop :=
  total_cashbarber s' = total_cashbarber s
  ∧ total_supabase s' = total_supabase s
  ∧ encontrados s' =
      encontrados s + count (has_match clientes_supabase) assinantes
  ∧ nao_encontrados s' =
      nao_encontrados s
      + count (λ a, negb (has_match clientes_supabase a)) assinantes
  ∧ nao_encontrados_lista s' =
      nao_encontrados_lista s ++ unmatched_names clientes_supabase assinantes
  ∧ decisions evs = decision clientes_supabase <$> assinantes
  ∧ writes evs =
      (if dry_run then [] else omap (write_for clientes_supabase) assinantes)
  ∧ count is_update evs =
      (if dry_run then 0
       else count (has_match clientes_supabase) assinantes)
  ∧ count is_request evs = count is_update evs
  ∧ atualizados s' =
      atualizados s
      + (if dry_run then count (has_match clientes_supabase) assinantes
         else count update_succeeded evs)
  ∧ erros s' =
      erros s + (if dry_run then 0 else count update_failed evs).
End Sync.

(** The service answering a sequence of update requests, one after the
    other, from the state [w]: for each request whether it returned
    ([true]) or raised ([false]), and the state it leaves. *)
Fixpoint serve {W : Type} (client : Client W) (w : W)
    (requests : list (string * gmap string string * string))
    : list bool * W :=
  match requests with
  | [] => ([], w)
  | (table, update_data, cliente_id) :: rest =>
      let '(response, w) := update_eq_id client table update_data cliente_id w in
      let '(answers, w) := serve client w rest in
      (match response with Returned _ => true | Raised => false end :: answers,
       w)
  end.

(** ** supabase_integration.py: [__init__], [sync_from_data], and the pass
       over the dictionaries it is handed *)

(** Truth value of an [Optional[str]]: [None] and [''] are false. *)
Definition truthy (x : option string) : bool :=
  match x with
  | Some (String _ _) => true
  | _ => false
  end.

(** [x or y] on [Optional[str]]. *)
Definition py_or (x y : option string) : option string :=
  if truthy x then x else y.

(** [Assinante.to_dict] *)
Definition to_dict (a : Assinante.t) : gmap string string :=
  <["data_criacao" := Assinante.data_criacao a]>
    (<["status" := Assinante.status a]>
      (<["plano" := Assinante.plano a]>
        (<["nome" := Assinante.nome a]> ∅))).

(** The three subscripts at the head of the loop body of
    [sync_assinantes]: [assinante['nome']], [assinante['plano']],
    [assinante['status']]; a missing key raises [KeyError] ([None]).  The
    pass reads no other key; the record's [data_criacao] is filled from the
    dictionary when present. *)
Definition read_assinante (d : gmap string string) : option Assinante.t :=
  match d !! "nome", d !! "plano", d !! "status" with
  | Some n, Some p, Some s =>
      Some (Assinante.make n p s (default "" (d !! "data_criacao")))
  | _, _, _ => None
  end.

(** A dictionary on which one of the three subscripts raises. *)
Definition d_missing_key (d : gmap string string) : Prop :=
  d !! "nome" = None ∨ d !! "plano" = None ∨ d !! "status" = None.

(** How a client reflects the row it was built from. *)
Definition reflects (self : SupabaseIntegration.t)
    (row : gmap string string) (c : ClienteSupabase.t) : Prop :=
  row !! "id" = Some (ClienteSupabase.id c)
  ∧ ClienteSupabase.nome c
    = default "" (row !! SupabaseIntegration.column_nome self)
  ∧ ClienteSupabase.telefone c = row !! "telefone"
  ∧ ClienteSupabase.plano_atual c
    = row !! SupabaseIntegration.column_plano self
  ∧ ClienteSupabase.status_assinatura c
    = row !! SupabaseIntegration.column_status self.

Section SyncFromData.
Context {W : Type}.
Variable create_client : string → string → outcome (Client W).
Variable getenv : string → option string.
Variable lower : string → string.
Variable strip : string → string.
Variable ratio : string → string → Q.

(** [arg or os.getenv(name, default)] *)
Definition or_getenv_default (arg : option string) (name dflt : string)
    : string :=
  default "" (py_or arg (Some (default dflt (getenv name)))).

(** [SupabaseIntegration.__init__]: the configured instance and its client,
    or [ValueError] when the URL or the key is missing (or whatever
    [create_client] raises). *)
Definition SupabaseIntegration_init
    (url key table_name column_nome column_plano column_status : option string)
    : outcome (SupabaseIntegration.t * Client W) :=
  let self_url := py_or url (getenv "SUPABASE_URL") in
  let self_key := py_or key (getenv "SUPABASE_SERVICE_KEY") in
  let self_table_name :=
    or_getenv_default table_name "SUPABASE_TABLE_NAME" "clientes" in
  let self_column_nome := or_getenv_default column_nome "COLUMN_NOME" "nome" in
  let self_column_plano :=
    or_getenv_default column_plano "COLUMN_PLANO" "plano_atual" in
  let self_column_status :=
    or_getenv_default column_status "COLUMN_STATUS" "status_assinatura" in
  if negb (truthy self_url) || negb (truthy self_key) then Raised
  else
    match create_client (default "" self_url) (default "" self_key) with
    | Returned client =>
        Returned
          (SupabaseIntegration.make self_table_name self_column_nome
             self_column_plano self_column_status,
           client)
    | Raised => Raised
    end.

(** The loop of [sync_assinantes] over dictionaries: a dictionary lacking
    one of the three keys raises out of the function, with whatever the
    earlier iterations did already done. *)
Fixpoint sync_dicts_loop (client : Client W) (self : SupabaseIntegration.t)
    (clientes_supabase : list ClienteSupabase.t) (dry_run : bool)
    (assinantes_cashbarber : list (gmap string string))
    (acc : Stats * state W) : outcome Stats * state W :=
  match assinantes_cashbarber with
  | [] => (Returned acc.1, acc.2)
  | assinante :: rest =>
      match read_assinante assinante with
      | Some a =>
          sync_dicts_loop client self clientes_supabase dry_run rest
            (sync_record client getenv lower strip ratio self
               clientes_supabase dry_run acc a)
      | None => (Raised, acc.2)
      end
  end.

(** [sync_assinantes] on the [List[Dict]] it is declared to take. *)
Definition sync_assinantes_dicts (client : Client W)
    (self : SupabaseIntegration.t)
    (assinantes_cashbarber : list (gmap string string)) (dry_run : bool)
    (st : state W) : outcome Stats * state W :=
  match get_all_clientes client self st with
  | (Returned clientes_supabase, st) =>
      sync_dicts_loop client self clientes_supabase dry_run
        assinantes_cashbarber
        (mk_stats (length assinantes_cashbarber) (length clientes_supabase)
           0 0 0 0 [], st)
  | (Raised, st) => (Raised, st)
  end.

(** [sync_from_data]: a fresh [SupabaseIntegration()], configured from the
    environment alone, then the pass. *)
Definition sync_from_data (assinantes_data : list (gmap string string))
    (dry_run : bool) (st : state W) : outcome Stats * state W :=
  match SupabaseIntegration_init None None None None None None with
  | Returned (integration, client) =>
      sync_assinantes_dicts client integration assinantes_data dry_run st
  | Raised => (Raised, st)
  end.
End SyncFromData.

(** ** cashbarber_extractor.py: rows of the table, [filter_by_status],
       [get_statistics], [extract_from_driver] *)

(** A [td] of the parsed page: what [.text] and [.get('colspan')] give. *)
Record cell : Type := mk_cell {
  cell_text : string;
  cell_colspan : option string
}.

(** The [stats] dictionary of [get_statistics]. *)
Record Statistics : Type := mk_statistics {
  total : nat;
  por_status : gmap string nat;
  por_plano : gmap string nat
}.

(** [counts[k] = counts.get(k, 0) + 1] for each element in turn. *)
Definition tally (key : Assinante.t → string) (assinantes : list Assinante.t)
    : gmap string nat :=
  fold_left (λ counts a, <[key a := default 0 (counts !! key a) + 1]> counts)
    assinantes ∅.

Definition get_statistics (assinantes : list Assinante.t) : Statistics :=
  mk_statistics (length assinantes)
    (tally Assinante.status assinantes)
    (tally Assinante.plano assinantes).

(** Sum of the values of a dictionary of counts. *)
Definition sum_counts (counts : gmap string nat) : nat :=
  map_fold (λ _ n acc, n + acc) 0 counts.

(** A row the loop of [extract_assinantes] turns into a record: at least
    four cells, and no [colspan] on the first. *)
Definition is_data_row (cols : list cell) : bool :=
  match cols with
  | c0 :: _ :: _ :: _ :: _ => negb (truthy (cell_colspan c0))
  | _ => false
  end.

Section Extractor.
Variable lower : string → string.
Variable strip : string → string.

(** One iteration of [for row in rows] in [extract_assinantes]: a row with
    fewer than four cells, or whose first cell has a [colspan], is
    skipped. *)
Definition row_to_assinante (cols : list cell) : option Assinante.t :=
  match cols with
  | c0 :: c1 :: c2 :: c3 :: _ =>
      if truthy (cell_colspan c0) then None
      else
        Some (Assinante.make (strip (cell_text c0)) (strip (cell_text c1))
                (strip (cell_text c2)) (strip (cell_text c3)))
  | _ => None
  end.

(** The loop of [extract_assinantes] over the rows of the table body. *)
Definition extract_rows (rows : list (list cell)) : list Assinante.t :=
  omap row_to_assinante rows.

(** [[a for a in assinantes if a.status.lower() == status.lower()]] *)
Definition filter_by_status (assinantes : list Assinante.t) (status : string)
    : list Assinante.t :=
  List.filter
    (λ a, String.eqb (lower (Assinante.status a)) (lower status))
    assinantes.
End Extractor.

(** ** main.py: [SyncConfig], [run_sync] *)

(** The entries of the dictionary given to [SyncConfig]; an absent key is
    [None].  Credentials are strings, options are booleans, as
    [from_args] builds them. *)
Record config_dict : Type := mk_config_dict {
  cd_cashbarber_email : option string;
  cd_cashbarber_password : option string;
  cd_headless : option bool;
  cd_dry_run : option bool;
  cd_direto : option bool
}.

Module SyncConfig.
Record t : Type := make {
  cashbarber_email : string;
  cashbarber_password : string;
  headless : bool;
  dry_run : bool;
  direto : bool
}.
End SyncConfig.

(** The parsed command line, as far as [from_args] reads it. *)
Record Args : Type := mk_args {
  args_email : option string;
  args_password : option string;
  args_headless : bool;
  args_dry_run : bool;
  args_direto : bool
}.

(** [SyncConfig.__init__]; [ValueError] when the e-mail or the password is
    missing. *)
Definition SyncConfig_init (getenv : string → option string)
    (d : config_dict) : outcome SyncConfig.t :=
  let email := py_or (cd_cashbarber_email d) (getenv "CASHBARBER_EMAIL") in
  let password :=
    py_or (cd_cashbarber_password d) (getenv "CASHBARBER_PASSWORD") in
  if negb (truthy email) || negb (truthy password) then Raised
  else
    Returned
      (SyncConfig.make (default "" email) (default "" password)
         (default true (cd_headless d)) (default false (cd_dry_run d))
         (default true (cd_direto d))).

(** [SyncConfig.from_args] *)
Definition SyncConfig_from_args (getenv : string → option string)
    (args : Args) : outcome SyncConfig.t :=
  SyncConfig_init getenv
    (mk_config_dict (args_email args) (args_password args)
       (Some (args_headless args)) (Some (args_dry_run args))
       (Some (args_direto args))).

(** The browser side of a run, over the state [B] of the browser and the
    panel: the login and the two navigations of
    [cashbarber_full_navigation.py], the loading of the table rows that
    starts [extract_assinantes] (wait, page source, parse, locate the table
    body), and [driver.quit()]. *)
Record Browser (B D : Type) : Type := {
  login_cashbarber : string → string → bool → B → outcome D * B;
  navigate_direto : D → B → outcome unit * B;
  navigate_to_quantidade_assinantes : D → B → outcome unit * B;
  load_table_rows : D → B → outcome (list (list cell)) * B;
  quit : D → B → B
}.
Arguments login_cashbarber {B D} _ _ _ _ _.
Arguments navigate_direto {B D} _ _ _.
Arguments navigate_to_quantidade_assinantes {B D} _ _ _.
Arguments load_table_rows {B D} _ _ _.
Arguments quit {B D} _ _ _.

(** The stages of [run_sync], as they are entered; [StQuit] is the
    [driver.quit()] of the [finally] clause. *)
Inductive stage : Type :=
  | StLogin
  | StNavigateDireto
  | StNavigateMenu
  | StExtract
  | StSync
  | StQuit.

Record run_state (B W : Type) : Type := mk_run_state {
  browser_state : B;
  database : state W;
  stages : list stage
}.
Arguments mk_run_state {B W} _ _ _.
Arguments browser_state {B W} _.
Arguments database {B W} _.
Arguments stages {B W} _.

(** The navigation [run_sync] chooses. *)
Definition navigation_stage (direto : bool) : stage :=
  if direto then StNavigateDireto else StNavigateMenu.

Section Orchestrator.
Context {B D W : Type}.
Variable browser : Browser B D.
Variable create_client : string → string → outcome (Client W).
Variable getenv : string → option string.
Variable lower : string → string.
Variable strip : string → string.
Variable ratio : string → string → Q.

(** [extract_from_driver]: the extracted records as dictionaries. *)
Definition extract_from_driver (driver : D) (b : B)
    : outcome (list (gmap string string)) * B :=
  match load_table_rows browser driver b with
  | (Returned rows, b) => (Returned (to_dict <$> extract_rows strip rows), b)
  | (Raised, b) => (Raised, b)
  end.

(** The [finally] clause with a driver at hand, after the [try] block left
    with [code]. *)
Definition leave (driver : D) (code : nat) (b : B) (db : state W)
    (sts : list stage) : nat * run_state B W :=
  (code, mk_run_state (quit browser driver b) db (sts ++ [StQuit])).

(** [run_sync]: exit code 0 when every stage returned, 1 when one raised. *)
Definition run_sync (config : SyncConfig.t) (rs : run_state B W)
    : nat * run_state B W :=
  let db := database rs in
  let sts := stages rs ++ [StLogin] in
  match login_cashbarber browser (SyncConfig.cashbarber_email config)
          (SyncConfig.cashbarber_password config)
          (SyncConfig.headless config) (browser_state rs) with
  | (Raised, b) => (1, mk_run_state b db sts)
  | (Returned driver, b) =>
      let '(navigated, b, sts) :=
        if SyncConfig.direto config then
          let '(r, b) := navigate_direto browser driver b in
          (r, b, sts ++ [StNavigateDireto])
        else
          let '(r, b) := navigate_to_quantidade_assinantes browser driver b in
          (r, b, sts ++ [StNavigateMenu]) in
      match navigated with
      | Raised => leave driver 1 b db sts
      | Returned _ =>
          let sts := sts ++ [StExtract] in
          match extract_from_driver driver b with
          | (Raised, b) => leave driver 1 b db sts
          | (Returned assinantes_data, b) =>
              let sts := sts ++ [StSync] in
              match sync_from_data create_client getenv lower strip ratio
                      assinantes_data (SyncConfig.dry_run config) db with
              | (Raised, db) => leave driver 1 b db sts
              | (Returned _, db) => leave driver 0 b db sts
              end
          end
      end
  end.
End Orchestrator.

(** ** Executable models of the library routines

    For ASCII text and, for the similarity ratio, strings shorter than 200
    characters (where [difflib]'s popularity heuristic is inactive and no
    junk predicate is given). *)
Module Py.
Definition lower_ascii (c : ascii) : ascii :=
  let n := nat_of_ascii c in
  if (65 <=? n)%nat && (n <=? 90)%nat then ascii_of_nat (n + 32) else c.

(** [str.lower] *)
Fixpoint lower (s : string) : string :=
  match s with
  | EmptyString => EmptyString
  | String c s' => String (lower_ascii c) (lower s')
  end.

(** [str.isspace] on one ASCII character. *)
Definition isspace (c : ascii) : bool :=
  let n := nat_of_ascii c in
  ((9 <=? n)%nat && (n <=? 13)%nat)
  || ((28 <=? n)%nat && (n <=? 32)%nat).

Fixpoint lstrip (s : string) : string :=
  match s with
  | EmptyString => EmptyString
  | String c s' => if isspace c then lstrip s' else s
  end.

Fixpoint rstrip (s : string) : string :=
  match s with
  | EmptyString => EmptyString
  | String c s' =>
      match rstrip s' with
      | EmptyString => if isspace c then EmptyString else String c EmptyString
      | r => String c r
      end
  end.

(** [str.strip] *)
Definition strip (s : string) : string := rstrip (lstrip s).

(** Length of the common prefix of two sequences. *)
Fixpoint common_prefix (a b : list ascii) : nat :=
  match a, b with
  | x :: a', y :: b' =>
      if Ascii.eqb x y then S (common_prefix a' b') else 0
  | _, _ => 0
  end.

(** Longest block of [a] starting at its head that occurs in [b], with the
    earliest start [j] in [b]; [best] is the pair (start, length) so far. *)
Fixpoint longest_at (a b : list ascii) (j : nat) (best : nat * nat)
    : nat * nat :=
  match b with
  | [] => best
  | _ :: b' =>
      let k := common_prefix a b in
      longest_at a b' (S j) (if (best.2 <? k)%nat then (j, k) else best)
  end.

(** [find_longest_match]: a longest common block, starting earliest in
    [a] and, among those, earliest in [b]; (0, 0, 0) when there is none. *)
Fixpoint find_longest_match_from (a b : list ascii) (i : nat)
    (best : nat * nat * nat) : nat * nat * nat :=
  match a with
  | [] => best
  | _ :: a' =>
      let '(j, k) := longest_at a b 0 (0, 0)%nat in
      find_longest_match_from a' b (S i)
        (if (best.2 <? k)%nat then (i, j, k) else best)
  end.

Definition find_longest_match (a b : list ascii) : nat * nat * nat :=
  find_longest_match_from a b 0 (0, 0, 0)%nat.

(** Total size of the matching blocks: the longest block, then the same
    to its left and to its right. *)
Fixpoint matches (fuel : nat) (a b : list ascii) : nat :=
  match fuel with
  | O => 0
  | S fuel' =>
      let '(i, j, k) := find_longest_match a b in
      if (k =? 0)%nat then 0
      else k + matches fuel' (take i a) (take j b)
             + matches fuel' (drop (i + k) a) (drop (j + k) b)
  end.

(** [SequenceMatcher(None, a, b).ratio()]: [2.0 * matches / length], and
    [1.0] for two empty strings. *)
Definition ratio (a b : string) : Q :=
  let la := list_ascii_of_string a in
  let lb := list_ascii_of_string b in
  let total := (length la + length lb)%nat in
  if (total =? 0)%nat then 1
  else Z.of_nat (2 * matches (S (length la)) la lb) # Pos.of_nat total.
End Py.

(** ** An in-memory service

    A table with a fixed set of columns, standing for the hosted database
    when the code is run on concrete inputs.  An update naming a column the
    table does not have is rejected as a whole; [outages] schedules
    transport failures, one flag per update request. *)
Module MemoryService.
Record t : Type := make {
  columns : list string;
  rows : list (gmap string string);
  outages : list bool
}.

Definition known_columns (cols : list string) (data : gmap string string)
    : bool :=
  forallb (λ kv, bool_decide (kv.1 ∈ cols)) (map_to_list data).

Definition apply_update (data : gmap string string) (cliente_id : string)
    (row : gmap string string) : gmap string string :=
  if bool_decide (row !! "id" = Some cliente_id) then data ∪ row else row.

Definition select (table : string) (w : t)
    : outcome (list (gmap string string)) * t :=
  (Returned (rows w), w).

Definition update (table : string) (data : gmap string string)
    (cliente_id : string) (w : t) : outcome unit * t :=
  match outages w with
  | true :: later => (Raised, make (columns w) (rows w) later)
  | scheduled =>
      if known_columns (columns w) data then
        (Returned tt,
         make (columns w) (apply_update data cliente_id <$> rows w)
              (tail scheduled))
      else (Raised, make (columns w) (rows w) (tail scheduled))
  end.

Definition client : Client t :=
  {| select_all := select; update_eq_id := update |}.
End MemoryService.

(** ** Concrete inputs

    A table with the default column names and no [COLUMN_TIMESTAMP] in the
    environment, on which the code is run in the examples below. *)
Module Sample.
Definition self : SupabaseIntegration.t :=
  SupabaseIntegration.make "clientes" "nome" "plano_atual" "status_assinatura".

Definition getenv (name : string) : option string := None.

Definition cliente (i n : string) : ClienteSupabase.t :=
  ClienteSupabase.make i n None None None.

Definition row (i n : string) : gmap string string :=
  <["id" := i]> (<["nome" := n]> ∅).

Definition assinante (n p s : string) : Assinante.t :=
  Assinante.make n p s "01/02/2024".

Definition find := find_cliente_by_name Py.lower Py.strip Py.ratio.
Definition update :=
  update_cliente MemoryService.client getenv self.
Definition fetch :=
  get_all_clientes MemoryService.client self.
Definition sync :=
  sync_assinantes MemoryService.client getenv Py.lower Py.strip Py.ratio self.

(** Three clients whose names differ from the query "joao silva" in the
    last letter only (similarity 0.9 each), and two spelled like it. *)
Definition joao_silvo := cliente "1" "Joao Silvo".
Definition joao_silve := cliente "2" "Joao Silve".
Definition joao_silva_upper := cliente "3" " JOAO SILVA ".
Definition joao_silva := cliente "4" "joao silva".

(** Two clients sharing no character with the query "ana"
    (similarity 0.0 each). *)
Definition bob := cliente "5" "Bob".
Definition cyd := cliente "6" "Cyd".

(** The customer table: three rows. *)
Definition table_rows : list (gmap string string) :=
  [row "1" "Joao Silva"; row "2" "Maria Souza"; row "3" "Pedro Lima"].

Definition snapshot : list ClienteSupabase.t :=
  [cliente "1" "Joao Silva"; cliente "2" "Maria Souza";
   cliente "3" "Pedro Lima"].

(** A table that has the timestamp column, and one that lacks it. *)
Definition columns_with_timestamp : list string :=
  ["id"; "nome"; "telefone"; "plano_atual"; "status_assinatura";
   "ultima_sincronizacao"].

Definition columns_without_timestamp : list string :=
  ["id"; "nome"; "telefone"; "plano_atual"; "status_assinatura"].

Definition healthy : state MemoryService.t :=
  mk_state (MemoryService.make columns_with_timestamp table_rows []) [].

(** The second update request meets a transport failure. *)
Definition second_fails : state MemoryService.t :=
  mk_state
    (MemoryService.make columns_with_timestamp table_rows [false; true]) [].

(** The first update request meets a transport failure. *)
Definition first_fails : state MemoryService.t :=
  mk_state (MemoryService.make columns_with_timestamp table_rows [true]) [].

Definition no_timestamp_column : state MemoryService.t :=
  mk_state (MemoryService.make columns_without_timestamp table_rows []) [].

(** Five scraped records: three match a client, two do not. *)
Definition scraped : list Assinante.t :=
  [assinante "JOAO SILVA" "Mensal" "ativo";
   assinante "Ana Costa" "Mensal" "ativo";
   assinante " maria souza " "Anual" "inadimplente";
   assinante "Pedro Lima" "Mensal" "cancelado";
   assinante "Zuleica" "Anual" "ativo"].

Definition one_scraped : list Assinante.t :=
  [assinante "Joao Silva" "Mensal" "ativo"].
End Sample.

(** A whole run on concrete inputs: an environment holding the URL and
    the key, a client factory handing out the in-memory service, and a
    browser whose stages return, the report showing two subscribers and a
    total line. *)
Module Scenario.
Definition getenv (name : string) : option string :=
  if String.eqb name "SUPABASE_URL" then Some "https://example.supabase.co"
  else if String.eqb name "SUPABASE_SERVICE_KEY" then Some "service-key"
  else None.

Definition create_client (url key : string)
    : outcome (Client MemoryService.t) :=
  Returned MemoryService.client.

Definition td (text : string) : cell := mk_cell text None.

Definition report_rows : list (list cell) :=
  [[td " Joao Silva "; td "Mensal"; td "Em dia"; td "01/02/2024"];
   [td "Ana Costa"; td "Anual"; td "Pendente"; td "05/03/2024"];
   [mk_cell "Total" (Some "3"); td "2"]].

(** The browser state is the list of what was asked of it. *)
Definition browser : Browser (list string) unit :=
  {| login_cashbarber := λ _ _ _ b, (Returned tt, b ++ ["login"]);
     navigate_direto := λ _ b, (Returned tt, b ++ ["get relatorio19"]);
     navigate_to_quantidade_assinantes :=
       λ _ b, (Returned tt, b ++ ["menu"]);
     load_table_rows := λ _ b, (Returned report_rows, b ++ ["page_source"]);
     quit := λ _ b, b ++ ["quit"] |}.

Definition config : SyncConfig.t :=
  SyncConfig.make "user@example.com" "secret" true false true.

Definition start : run_state (list string) MemoryService.t :=
  mk_run_state [] Sample.healthy [].

Definition integration : SupabaseIntegration.t :=
  SupabaseIntegration.make "clientes" "nome" "plano_atual" "status_assinatura".

(** A table in which the second row has no [id]. *)
Definition row_without_id : state MemoryService.t :=
  mk_state
    (MemoryService.make Sample.columns_with_timestamp
       [Sample.row "1" "Joao Silva"; <["nome" := "Maria Souza"]> ∅] [])
    [].

(** A scraped dictionary without the key [plano]. *)
Definition dict_without_plano : gmap string string :=
  <["status" := "ativo"]> (<["nome" := "Pedro Lima"]> ∅).
End Scenario.

(** * Properties *)

(** ** The name matcher *)

Lemma Qgt_bool_true (a b : Q) : Qgt_bool a b = true ↔ (b < a)%Q.
Proof.
  unfold Qgt_bool. rewrite negb_true_iff. split.
  - intros H. apply Qnot_le_lt. intros Hle.
    apply Qle_bool_iff in Hle. congruence.
  - intros H. destruct (Qle_bool a b) eqn:E; [|done].
    apply Qle_bool_iff in E. exfalso. exact (Qlt_not_le _ _ H E).
Qed.

Lemma Qgt_bool_false (a b : Q) : Qgt_bool a b = false ↔ (a <= b)%Q.
Proof.
  unfold Qgt_bool. rewrite negb_false_iff. apply Qle_bool_iff.
Qed.

Section MatcherFacts.
Variable lower : string → string.
Variable strip : string → string.
Variable ratio : string → string → Q.

Local Abbreviation lower_strip := (lower_strip lower strip).
Local Abbreviation scan_step := (scan_step lower strip ratio).
Local Abbreviation scan := (scan lower strip ratio).
Local Abbreviation find_cliente_by_name := (find_cliente_by_name lower strip ratio).
Local Abbreviation score := (score lower strip ratio).
Local Abbreviation exact := (exact lower strip).
Local Abbreviation no_exact := (no_exact lower strip).
Local Abbreviation first_best := (first_best lower strip ratio).
Local Abbreviation first_of_tied_best := (first_of_tied_best lower strip ratio).

Lemma scan_step_exact q bm br c :
  exact q c → scan_step (lower_strip q) bm br c = Return c.
Proof.
  unfold exact, scan_step. intros ->. by rewrite String.eqb_refl.
Qed.

Lemma scan_step_not_exact q bm br c :
  ¬ exact q c →
  scan_step (lower_strip q) bm br c =
    if Qgt_bool (score q c) br then Continue (Some c) (score q c)
    else Continue bm br.
Proof.
  unfold exact, scan_step, score. intros Hne.
  destruct (String.eqb _ _) eqn:E; [|done].
  apply String.eqb_eq in E. contradiction.
Qed.

(** The loop over a concatenation: the second part runs from the state
    the first part leaves, unless the first part already returned. *)
Lemma scan_app q l1 l2 bm br :
  scan q (l1 ++ l2) bm br =
    match scan q l1 bm br with
    | Return c => Return c
    | Continue bm' br' => scan q l2 bm' br'
    end.
Proof.
  revert bm br. induction l1 as [|x l1 IH]; intros bm br; simpl; [done|].
  destruct (scan_step q bm br x); [done|]. apply IH.
Qed.

(** Without an exact match the loop runs to its end, and either nobody
    beat the initial ratio, or the running best is the first client
    attaining the maximal score. *)
Lemma scan_no_exact q cs bm br :
  no_exact q cs →
  (scan (lower_strip q) cs bm br = Continue bm br
   ∧ Forall (λ x, (score q x <= br)%Q) cs)
  ∨ (∃ c, scan (lower_strip q) cs bm br = Continue (Some c) (score q c)
          ∧ (br < score q c)%Q ∧ first_best q cs c).
Proof.
  revert bm br. induction cs as [|x cs IH]; intros bm br Hne.
  - left. by split.
  - apply Forall_cons in Hne as [Hx Hcs]. simpl.
    rewrite (scan_step_not_exact _ _ _ _ Hx).
    destruct (Qgt_bool (score q x) br) eqn:E.
    + apply Qgt_bool_true in E.
      destruct (IH (Some x) (score q x) Hcs) as [[-> Hall]|(c & -> & Hlt & Hfb)].
      * right. exists x. split; [done|]. split; [done|].
        exists [], cs. by repeat split.
      * right. exists c. split; [done|]. split; [by eapply Qlt_trans|].
        destruct Hfb as (l1 & l2 & -> & Hb & Ha).
        exists (x :: l1), l2. repeat split; [|done]. by constructor.
    + apply Qgt_bool_false in E.
      destruct (IH bm br Hcs) as [[-> Hall]|(c & -> & Hlt & Hfb)].
      * left. split; [done|]. by constructor.
      * right. exists c. split; [done|]. split; [done|].
        destruct Hfb as (l1 & l2 & -> & Hb & Ha).
        exists (x :: l1), l2. repeat split; [|done].
        constructor; [|done]. by eapply Qle_lt_trans.
Qed.

(** The first position of the maximal score is one position: two clients
    that both qualify are the same element of the list. *)
Lemma first_best_unique q cs c c' :
  first_best q cs c → first_best q cs c' → c = c'.
Proof.
  intros (l1 & l2 & -> & Hb & Ha) (l1' & l2' & Heq & Hb' & Ha').
  revert l1' Heq Hb'. induction l1 as [|x l1 IH]; intros l1' Heq Hb'.
  - destruct l1' as [|y l1']; simpl in Heq.
    + congruence.
    + injection Heq as -> ->.
      apply Forall_cons in Hb' as [Hlt _].
      assert (Hin : c' ∈ l1' ++ c' :: l2') by set_solver.
      rewrite Forall_forall in Ha. apply Ha in Hin.
      exfalso. exact (Qlt_not_le _ _ Hlt Hin).
  - apply Forall_cons in Hb as [Hx Hb].
    destruct l1' as [|y l1']; simpl in Heq.
    + injection Heq as -> <-.
      assert (Hin : c ∈ l1 ++ c :: l2) by set_solver.
      rewrite Forall_forall in Ha'. apply Ha' in Hin.
      exfalso. exact (Qlt_not_le _ _ Hx Hin).
    + injection Heq as -> Heq.
      apply Forall_cons in Hb' as [_ Hb']. by apply (IH Hb l1').
Qed.

Lemma first_best_in q cs c : first_best q cs c → c ∈ cs.
Proof. intros (l1 & l2 & -> & _). set_solver. Qed.

Lemma first_best_max q cs c x :
  first_best q cs c → x ∈ cs → (score q x <= score q c)%Q.
Proof.
  intros (l1 & l2 & -> & Hb & Ha) Hin.
  rewrite Forall_forall in Hb. rewrite Forall_forall in Ha.
  apply elem_of_app in Hin as [Hin|Hin].
  - apply Qlt_le_weak. by apply Hb.
  - apply elem_of_cons in Hin as [->|Hin]; [apply Qle_refl|by apply Ha].
Qed.

Lemma first_of_tied_best_first_best q cs c :
  first_of_tied_best q cs c → first_best q cs c.
Proof. intros (l1 & l2 & ? & ? & ? & _). by exists l1, l2. Qed.

(** What the function returns when no name matches exactly. *)
Lemma find_no_exact q cs t :
  no_exact q cs →
  (find_cliente_by_name q cs t = None
   ∧ Forall (λ x, (score q x <= 0)%Q) cs)
  ∨ (∃ c, first_best q cs c ∧ (0 < score q c)%Q
          ∧ find_cliente_by_name q cs t =
              if Qle_bool t (score q c) then Some c else None).
Proof.
  intros Hne. unfold find_cliente_by_name.
  destruct (scan_no_exact q cs None 0 Hne) as [[-> Hall]|(c & -> & Hlt & Hfb)].
  - left. split; [|done]. by destruct (Qle_bool t 0).
  - right. by exists c.
Qed.

Lemma find_some_first_best q cs t c :
  no_exact q cs → find_cliente_by_name q cs t = Some c →
  first_best q cs c ∧ (0 < score q c)%Q ∧ (t <= score q c)%Q.
Proof.
  intros Hne Hfind.
  destruct (find_no_exact q cs t Hne) as [[Hnone _]|(c0 & Hfb & Hpos & Heq)].
  - congruence.
  - rewrite Heq in Hfind. destruct (Qle_bool t (score q c0)) eqn:E; [|done].
    injection Hfind as <-. by apply Qle_bool_iff in E.
Qed.

(** C1. When some client's name equals the query after [lower().strip()],
    the function returns the first such client in iteration order.  The
    statement holds for every similarity function [ratio] and every
    threshold [t]: no score of another client, however high, and no
    threshold comparison takes part in the result. *)
Theorem find_exact_match_first q before c after t :
  no_exact q before → exact q c →
  find_cliente_by_name q (before ++ c :: after) t = Some c.
Proof.
  intros Hne Hex. unfold find_cliente_by_name.
  rewrite scan_app.
  destruct (scan_no_exact q before None 0 Hne) as [[-> _]|(c0 & -> & _)];
    simpl; by rewrite scan_step_exact.
Qed.

Lemma find_first_best_iff q cs t c :
  no_exact q cs → first_best q cs c →
  (find_cliente_by_name q cs t = Some c
   ↔ (t <= score q c)%Q ∧ (0 < score q c)%Q).
Proof.
  intros Hne Hfb. split.
  - intros Hfind.
    by destruct (find_some_first_best q cs t c Hne Hfind) as (_ & ? & ?).
  - intros [Ht Hpos].
    destruct (find_no_exact q cs t Hne) as [[_ Hall]|(c0 & Hfb0 & _ & ->)].
    + rewrite Forall_forall in Hall.
      exfalso. exact (Qlt_not_le _ _ Hpos (Hall c (first_best_in q cs c Hfb))).
    + rewrite (first_best_unique q cs c0 c Hfb0 Hfb).
      apply Qle_bool_iff in Ht. by rewrite Ht.
Qed.

(** C2, as amended.  With no exact match: the best-scoring client (the
    first one attaining the maximal score) is returned exactly when its
    score is at least the threshold and strictly positive; nothing is
    returned when every score is strictly below the threshold; and a match
    obtained at a threshold is obtained, with the same client, at every
    lower threshold. *)
Theorem find_threshold_gate q cs :
  no_exact q cs →
  (∀ c t, first_best q cs c →
     (find_cliente_by_name q cs t = Some c
      ↔ (t <= score q c)%Q ∧ (0 < score q c)%Q))
  ∧ (∀ t, Forall (λ x, (score q x < t)%Q) cs →
       find_cliente_by_name q cs t = None)
  ∧ (∀ t t' c, (t' <= t)%Q →
       find_cliente_by_name q cs t = Some c →
       find_cliente_by_name q cs t' = Some c).
Proof.
  intros Hne. split; [|split].
  - intros c t Hfb. by apply find_first_best_iff.
  - intros t Hall.
    destruct (find_no_exact q cs t Hne) as [[-> _]|(c0 & Hfb0 & _ & ->)]; [done|].
    rewrite Forall_forall in Hall.
    destruct (Qle_bool t (score q c0)) eqn:E; [|done].
    apply Qle_bool_iff in E.
    exfalso. exact (Qlt_not_le _ _ (Hall c0 (first_best_in q cs c0 Hfb0)) E).
  - intros t t' c Hle Hfind.
    destruct (find_some_first_best q cs t c Hne Hfind) as (Hfb & Hpos & Ht).
    apply find_first_best_iff; [done..|]. split; [|done]. by eapply Qle_trans.
Qed.

(** C3, as amended.  With no exact match, when two or more clients attain
    the maximal score and that score is strictly positive and reaches the
    threshold, the function returns the first of them in input order. *)
Theorem find_tie_keeps_first q cs t c :
  no_exact q cs → first_of_tied_best q cs c →
  (0 < score q c)%Q → (t <= score q c)%Q →
  find_cliente_by_name q cs t = Some c.
Proof.
  intros Hne Htie Hpos Ht.
  apply first_of_tied_best_first_best in Htie.
  by apply find_first_best_iff.
Qed.
End MatcherFacts.

(** ** Traces and counters *)

Lemma count_nil {A} (f : A → bool) : count f [] = 0.
Proof. done. Qed.

Lemma count_cons {A} (f : A → bool) x l :
  count f (x :: l) = (if f x then 1 else 0) + count f l.
Proof. unfold count. simpl. by destruct (f x). Qed.

Lemma count_app {A} (f : A → bool) l1 l2 :
  count f (l1 ++ l2) = count f l1 + count f l2.
Proof. unfold count. by rewrite List.filter_app, length_app. Qed.

Lemma count_split {A} (f : A → bool) l :
  count f l + count (λ x, negb (f x)) l = length l.
Proof.
  induction l as [|x l IH]; [done|].
  rewrite !count_cons. simpl. destruct (f x); simpl; lia.
Qed.

Lemma count_update_outcomes tr :
  count is_update tr = count update_succeeded tr + count update_failed tr.
Proof.
  induction tr as [|e tr IH]; [done|].
  rewrite !count_cons, IH. destruct e as [| ? ? ? [|] | |]; simpl; lia.
Qed.

Lemma count_succeeded_outcomes tr :
  count update_succeeded tr = count (λ b : bool, b) (outcomes tr).
Proof.
  induction tr as [|e tr IH]; [done|].
  rewrite count_cons, IH. unfold outcomes.
  destruct e as [| ? ? ? [|] | |]; simpl; by rewrite ?count_cons.
Qed.

Lemma count_failed_outcomes tr :
  count update_failed tr = count negb (outcomes tr).
Proof.
  induction tr as [|e tr IH]; [done|].
  rewrite count_cons, IH. unfold outcomes.
  destruct e as [| ? ? ? [|] | |]; simpl; by rewrite ?count_cons.
Qed.

Lemma writes_app tr1 tr2 : writes (tr1 ++ tr2) = writes tr1 ++ writes tr2.
Proof. apply omap_app. Qed.

Lemma decisions_app tr1 tr2 :
  decisions (tr1 ++ tr2) = decisions tr1 ++ decisions tr2.
Proof. apply omap_app. Qed.

Lemma writes_no_update tr : count is_update tr = 0 → writes tr = [].
Proof.
  induction tr as [|e tr IH]; [done|].
  rewrite count_cons. destruct e; simpl; try done; intros; by apply IH.
Qed.

Lemma Stats_eq (s s' : Stats) :
  total_cashbarber s = total_cashbarber s' →
  total_supabase s = total_supabase s' →
  encontrados s = encontrados s' →
  atualizados s = atualizados s' →
  nao_encontrados s = nao_encontrados s' →
  erros s = erros s' →
  nao_encontrados_lista s = nao_encontrados_lista s' →
  s = s'.
Proof. destruct s, s'. simpl. by intros -> -> -> -> -> -> ->. Qed.

(** ** The synchronisation pass *)

Section SyncFacts.
Context {W : Type}.
Variable client : Client W.
Variable getenv : string → option string.
Variable lower : string → string.
Variable strip : string → string.
Variable ratio : string → string → Q.
Variable self : SupabaseIntegration.t.

Local Abbreviation get_all_clientes := (get_all_clientes client self).
Local Abbreviation update_data_of := (update_data_of getenv self).
Local Abbreviation update_cliente := (update_cliente client getenv self).
Local Abbreviation sync_record := (sync_record client getenv lower strip ratio self).
Local Abbreviation sync_assinantes :=
  (sync_assinantes client getenv lower strip ratio self).
Local Abbreviation has_match := (has_match lower strip ratio).
Local Abbreviation decision := (decision lower strip ratio).
Local Abbreviation write_for := (write_for getenv lower strip ratio self).
Local Abbreviation unmatched_names := (unmatched_names lower strip ratio).
Local Abbreviation run_post := (run_post getenv lower strip ratio self).
Local Abbreviation table := (SupabaseIntegration.table_name self).

(** [update_cliente] sends one request, carrying all the fields at once, and
    reports whether that request returned. *)
Lemma update_cliente_one_request cliente_id plano status update_timestamp st :
  ∃ (ok : bool) w,
    update_eq_id client table (update_data_of plano status update_timestamp)
      cliente_id (service st)
    = ((if ok then Returned tt else Raised), w)
    ∧ update_cliente cliente_id plano status update_timestamp st
      = (ok, mk_state w
               (trace st ++
                  [DbUpdate table
                     (update_data_of plano status update_timestamp)
                     cliente_id ok])).
Proof.
  unfold update_cliente.
  destruct (update_eq_id _ _ _ _ _) as [[[]|] w].
  - by exists true, w.
  - by exists false, w.
Qed.

(** The fetch sends one request and nothing else. *)
Lemma get_all_clientes_trace st r st1 :
  get_all_clientes st = (r, st1) →
  trace st1 = trace st ++ [DbSelect table].
Proof.
  unfold get_all_clientes.
  destruct (select_all _ _ _) as [[data|] w].
  - destruct (mapM _ data); by intros [= <- <-].
  - by intros [= <- <-].
Qed.

Lemma run_post_nil cs dry_run s : run_post cs dry_run [] s s [].
Proof.
  unfold run_post, unmatched_names. simpl.
  rewrite !count_nil, app_nil_r. destruct dry_run; repeat split; lia.
Qed.

Lemma run_post_cons cs dry_run a rest s s1 s2 evs1 evs2 :
  run_post cs dry_run [a] s s1 evs1 →
  run_post cs dry_run rest s1 s2 evs2 →
  run_post cs dry_run (a :: rest) s s2 (evs1 ++ evs2).
Proof.
  unfold run_post, unmatched_names.
  intros (A1 & A2 & A3 & A4 & A5 & A6 & A7 & A8 & A9 & A10 & A11)
         (B1 & B2 & B3 & B4 & B5 & B6 & B7 & B8 & B9 & B10 & B11).
  rewrite !count_cons, !count_nil in *. simpl in *.
  rewrite !count_app, writes_app, decisions_app.
  rewrite A6, B6, A7, B7, A8, B8, B5, A5.
  repeat split; try lia.
  - destruct (has_match cs a); simpl; by rewrite <- ?app_assoc.
  - destruct dry_run; [done|]. by destruct (write_for cs a).
  - destruct dry_run; lia.
  - destruct dry_run; lia.
  - destruct dry_run; lia.
Qed.

(** One iteration of the loop. *)
Lemma sync_record_post cs dry_run s st a :
  ∃ evs,
    trace (sync_record cs dry_run (s, st) a).2 = trace st ++ evs
    ∧ run_post cs dry_run [a] s (sync_record cs dry_run (s, st) a).1 evs
    ∧ (dry_run = true →
       service (sync_record cs dry_run (s, st) a).2 = service st).
Proof.
  unfold sync_record, run_post, unmatched_names,
    decision, write_for, has_match.
  rewrite !count_cons, !count_nil. simpl.
  destruct (find_cliente_by_name _ _ _ _ _ _) as [c|]; simpl.
  - destruct dry_run; simpl.
    + eexists. split; [reflexivity|].
      repeat split; simpl; rewrite ?app_nil_r; done || lia.
    + destruct (update_cliente_one_request (ClienteSupabase.id c)
                  (Assinante.plano a) (Assinante.status a) true
                  (emit (LogMatch (Assinante.nome a) (ClienteSupabase.nome c)) st))
        as (ok & w & _ & ->).
      exists [LogMatch (Assinante.nome a) (ClienteSupabase.nome c);
              DbUpdate table
                (update_data_of (Assinante.plano a) (Assinante.status a) true)
                (ClienteSupabase.id c) ok].
      destruct ok; simpl; rewrite <- app_assoc;
        (split; [reflexivity|]); (split; [|done]);
        repeat split; simpl; rewrite ?app_nil_r; done || lia.
  - eexists. split; [reflexivity|].
    split; [|done]. destruct dry_run; repeat split; simpl; done || lia.
Qed.

(** The whole loop. *)
Lemma sync_loop_post cs dry_run assinantes s st :
  ∃ evs,
    trace (fold_left (sync_record cs dry_run) assinantes (s, st)).2
      = trace st ++ evs
    ∧ run_post cs dry_run assinantes s
        (fold_left (sync_record cs dry_run) assinantes (s, st)).1 evs
    ∧ (dry_run = true →
       service (fold_left (sync_record cs dry_run) assinantes (s, st)).2
         = service st).
Proof.
  revert s st. induction assinantes as [|a rest IH]; intros s st.
  - exists []. simpl. rewrite app_nil_r. split; [done|].
    split; [apply run_post_nil|done].
  - destruct (sync_record_post cs dry_run s st a) as (evs1 & Ht1 & Hp1 & Hs1).
    cbn [fold_left]. destruct (sync_record cs dry_run (s, st) a) as [s1 st1].
    cbn [fst snd] in Ht1, Hp1, Hs1.
    destruct (IH s1 st1) as (evs2 & Ht2 & Hp2 & Hs2).
    exists (evs1 ++ evs2). split; [|split].
    + by rewrite Ht2, Ht1, <- app_assoc.
    + by eapply run_post_cons.
    + intros Hd. by rewrite (Hs2 Hd), (Hs1 Hd).
Qed.

(** The pass as a whole, once the fetch has returned a snapshot: it returns
    statistics, and the loop took the initial statistics to them. *)
Lemma sync_assinantes_post assinantes dry_run st cs st1 :
  get_all_clientes st = (Returned cs, st1) →
  ∃ stats st2 evs,
    sync_assinantes assinantes dry_run st = (Returned stats, st2)
    ∧ trace st2 = trace st ++ DbSelect table :: evs
    ∧ run_post cs dry_run assinantes (initial_stats assinantes cs) stats evs
    ∧ (dry_run = true → service st2 = service st1).
Proof.
  intros Hget. unfold sync_assinantes. rewrite Hget.
  destruct (sync_loop_post cs dry_run assinantes (initial_stats assinantes cs) st1)
    as (evs & Ht & Hp & Hs).
  destruct (fold_left _ _ _) as [stats st2]. simpl in *.
  exists stats, st2, evs. split; [done|]. split; [|done].
  rewrite Ht, (get_all_clientes_trace _ _ _ Hget). by rewrite <- app_assoc.
Qed.

Lemma sync_assinantes_fetch_raises assinantes dry_run st st1 :
  get_all_clientes st = (Raised, st1) →
  sync_assinantes assinantes dry_run st = (Raised, st1).
Proof. intros Hget. unfold sync_assinantes. by rewrite Hget. Qed.

Lemma initial_stats_post cs dry_run assinantes stats evs :
  run_post cs dry_run assinantes (initial_stats assinantes cs) stats evs →
  total_cashbarber stats = length assinantes
  ∧ total_supabase stats = length cs
  ∧ encontrados stats = count (has_match cs) assinantes
  ∧ nao_encontrados stats = count (λ a, negb (has_match cs a)) assinantes
  ∧ nao_encontrados_lista stats = unmatched_names cs assinantes
  ∧ atualizados stats =
      (if dry_run then count (has_match cs) assinantes
       else count update_succeeded evs)
  ∧ erros stats = (if dry_run then 0 else count update_failed evs).
Proof.
  unfold run_post, initial_stats. simpl.
  intros (-> & -> & -> & -> & -> & _ & _ & _ & _ & -> & ->). done.
Qed.

(** C4, as amended.  A dry run sends no update request and leaves the
    service as the fetch left it, yet counts every matched record as
    updated.  A live run over the same records and the same snapshot
    reports the same statistics exactly when none of its update requests
    fails. *)
Theorem dry_run_sends_no_update assinantes st cs st1 :
  get_all_clientes st = (Returned cs, st1) →
  ∃ stats st2 evs,
    sync_assinantes assinantes true st = (Returned stats, st2)
    ∧ trace st2 = trace st ++ DbSelect table :: evs
    ∧ count is_update evs = 0
    ∧ service st2 = service st1
    ∧ atualizados stats = count (has_match cs) assinantes
    ∧ encontrados stats = count (has_match cs) assinantes
    ∧ ∀ st' st1', get_all_clientes st' = (Returned cs, st1') →
        ∃ stats' st2' evs',
          sync_assinantes assinantes false st' = (Returned stats', st2')
          ∧ trace st2' = trace st' ++ DbSelect table :: evs'
          ∧ (stats' = stats ↔ count update_failed evs' = 0).
Proof.
  intros Hget.
  destruct (sync_assinantes_post assinantes true st cs st1 Hget)
    as (stats & st2 & evs & Hrun & Htr & Hpost & Hsrv).
  exists stats, st2, evs.
  pose proof Hpost as (_ & _ & _ & _ & _ & _ & _ & Hupd & _).
  apply initial_stats_post in Hpost as (Htc & Hts & Henc & Hnao & Hlst & Hat & Her).
  repeat (split; [by auto|]).
  intros st' st1' Hget'.
  destruct (sync_assinantes_post assinantes false st' cs st1' Hget')
    as (stats' & st2' & evs' & Hrun' & Htr' & Hpost' & _).
  exists stats', st2', evs'. split; [done|]. split; [done|].
  pose proof Hpost' as (_ & _ & _ & _ & _ & _ & _ & Hupd' & _).
  apply initial_stats_post in Hpost'
    as (Htc' & Hts' & Henc' & Hnao' & Hlst' & Hat' & Her').
  split.
  - intros <-. congruence.
  - intros Hnofail. apply Stats_eq; try congruence.
    rewrite count_update_outcomes in Hupd'. lia.
Qed.

Lemma outcomes_app tr1 tr2 :
  outcomes (tr1 ++ tr2) = outcomes tr1 ++ outcomes tr2.
Proof. apply omap_app. Qed.

(** What a live iteration does on a matched record is decided by the
    service: when the request raises the record goes under [erros], when
    it returns under [atualizados]. *)
Lemma sync_record_live_matched cs s st a c :
  find_cliente_by_name lower strip ratio (Assinante.nome a) cs
    default_threshold = Some c →
  let request :=
    update_eq_id client table
      (update_data_of (Assinante.plano a) (Assinante.status a) true)
      (ClienteSupabase.id c) (service st) in
  let ok := match request.1 with Returned _ => true | Raised => false end in
  sync_record cs false (s, st) a
  = ((if ok then inc_atualizados (inc_encontrados s)
      else inc_erros (inc_encontrados s)),
     mk_state request.2
       (trace st
          ++ [LogMatch (Assinante.nome a) (ClienteSupabase.nome c);
              DbUpdate table
                (update_data_of (Assinante.plano a) (Assinante.status a) true)
                (ClienteSupabase.id c) ok])).
Proof.
  intros Hfind request ok. subst request ok.
  unfold sync_record, update_cliente. rewrite Hfind. simpl.
  destruct (update_eq_id _ _ _ _ _) as [[[]|] w]; simpl;
    by rewrite <- app_assoc.
Qed.

(** The live loop sends its requests to the service one after the other:
    the outcomes in the trace are the answers of the service, and the loop
    leaves the service in the state the last answer left it. *)
Lemma sync_loop_served cs assinantes s st :
  ∃ evs,
    trace (fold_left (sync_record cs false) assinantes (s, st)).2
      = trace st ++ evs
    ∧ serve client (service st) (omap (write_for cs) assinantes)
      = (outcomes evs,
         service (fold_left (sync_record cs false) assinantes (s, st)).2).
Proof.
  revert s st. induction assinantes as [|a rest IH]; intros s st.
  - exists []. simpl. by rewrite app_nil_r.
  - cbn [fold_left].
    destruct (find_cliente_by_name lower strip ratio (Assinante.nome a) cs
                default_threshold) as [c|] eqn:Hfind.
    + rewrite (sync_record_live_matched cs s st a c Hfind).
      change (omap (write_for cs) (a :: rest))
        with (match write_for cs a with
              | Some y => y :: omap (write_for cs) rest
              | None => omap (write_for cs) rest
              end).
      unfold write_for at 1. rewrite Hfind. cbn [serve].
      destruct (update_eq_id _ _ _ _ _) as [response w]. cbn [fst snd].
      match goal with
      | |- context [fold_left _ rest (?s1, ?st1)] =>
          destruct (IH s1 st1) as (evs & Htr & Hserve)
      end.
      cbn [service trace] in Htr, Hserve. rewrite Hserve.
      eexists. split.
      * rewrite Htr, <- app_assoc. reflexivity.
      * rewrite outcomes_app. by destruct response.
    + change (omap (write_for cs) (a :: rest))
        with (match write_for cs a with
              | Some y => y :: omap (write_for cs) rest
              | None => omap (write_for cs) rest
              end).
      unfold write_for at 1, sync_record at 2 4. rewrite Hfind.
      destruct (IH (add_nao_encontrado (Assinante.nome a) s)
                  (emit (LogNotFound (Assinante.nome a)) st))
        as (evs & Htr & Hserve).
      cbn [service trace emit] in Htr, Hserve. rewrite Hserve.
      eexists. split.
      * rewrite Htr, <- app_assoc. reflexivity.
      * by rewrite outcomes_app.
Qed.

(** C5.  In a live run, a matched record whose update request the service
    fails (the request raises, [update_cliente] reports [False]) adds one
    to [erros] and nothing to [atualizados], and the loop goes on with the
    state the service was left in.  Over the whole pass every matched
    record gets its request, in order, whatever happened to the earlier
    ones; the outcomes are the answers of the service to these requests;
    [erros] is the number of requests the service failed and
    [atualizados] the number it accepted; every record is accounted for.
    With three matched records and one request failed by the service the
    statistics show [atualizados = 2] and [erros = 1]. *)
Theorem live_run_counts_failures assinantes st cs st1 :
  get_all_clientes st = (Returned cs, st1) →
  (∀ s st0 a c w,
     find_cliente_by_name lower strip ratio (Assinante.nome a) cs
       default_threshold = Some c →
     update_eq_id client table
       (update_data_of (Assinante.plano a) (Assinante.status a) true)
       (ClienteSupabase.id c) (service st0) = (Raised, w) →
     ∃ st0',
       sync_record cs false (s, st0) a
       = (inc_erros (inc_encontrados s), st0')
       ∧ service st0' = w
       ∧ update_cliente (ClienteSupabase.id c) (Assinante.plano a)
           (Assinante.status a) true
           (emit (LogMatch (Assinante.nome a) (ClienteSupabase.nome c)) st0)
         = (false, st0'))
  ∧ ∃ stats st2 evs,
      sync_assinantes assinantes false st = (Returned stats, st2)
      ∧ trace st2 = trace st ++ DbSelect table :: evs
      ∧ writes evs = omap (write_for cs) assinantes
      ∧ serve client (service st1) (omap (write_for cs) assinantes)
        = (outcomes evs, service st2)
      ∧ length (outcomes evs) = count (has_match cs) assinantes
      ∧ encontrados stats = count (has_match cs) assinantes
      ∧ erros stats = count negb (outcomes evs)
      ∧ atualizados stats = count (λ ok : bool, ok) (outcomes evs)
      ∧ encontrados stats + nao_encontrados stats = length assinantes
      ∧ (count (has_match cs) assinantes = 3 →
         count negb (outcomes evs) = 1 →
         atualizados stats = 2 ∧ erros stats = 1).
Proof.
  intros Hget. split.
  - intros s st0 a c w Hfind Hreq.
    pose proof (sync_record_live_matched cs s st0 a c Hfind) as Hrec.
    cbv zeta in Hrec. rewrite Hreq in Hrec. cbn [fst snd] in Hrec.
    eexists. split; [exact Hrec|]. split; [done|].
    unfold update_cliente. cbn [service emit trace]. rewrite Hreq.
    by rewrite <- app_assoc.
  - destruct (sync_assinantes_post assinantes false st cs st1 Hget)
      as (stats & st2 & evs & Hrun & Htr & Hpost & _).
    exists stats, st2, evs.
    pose proof Hpost as (_ & _ & _ & _ & _ & _ & Hwr & Hupd & _).
    apply initial_stats_post in Hpost
      as (Htc & Hts & Henc & Hnao & Hlst & Hat & Her).
    pose proof (count_split (has_match cs) assinantes) as Hsplit.
    pose proof (count_update_outcomes evs) as Hout.
    rewrite count_succeeded_outcomes in Hat, Hout.
    rewrite count_failed_outcomes in Her, Hout.
    assert (Hlen : length (outcomes evs) = count is_update evs).
    { rewrite Hout. clear.
      induction (outcomes evs) as [|ok l IH]; [done|].
      rewrite !count_cons. destruct ok; simpl; lia. }
    assert (Hserve : serve client (service st1) (omap (write_for cs) assinantes)
                     = (outcomes evs, service st2)).
    { destruct (sync_loop_served cs assinantes (initial_stats assinantes cs) st1)
        as (evs' & Htr' & Hserve).
      unfold sync_assinantes in Hrun. rewrite Hget in Hrun.
      destruct (fold_left _ _ _) as [stats' st2'] eqn:Hfold.
      injection Hrun as <- <-. simpl in Htr', Hserve.
      rewrite (get_all_clientes_trace _ _ _ Hget) in Htr'.
      rewrite Htr, <- app_assoc in Htr'. simpl in Htr'.
      apply app_inv_head in Htr'. injection Htr' as <-. exact Hserve. }
    repeat (split; [done || lia|]). lia.
Qed.

(** C6, as amended.  On an empty scraped sequence the pass sends exactly
    one request, the fetch of the snapshot, and no update; once the fetch
    has returned, the statistics have [total_supabase] equal to the size of
    the snapshot, every other count zero and an empty list of unmatched
    names. *)
Theorem sync_empty dry_run st cs st1 :
  get_all_clientes st = (Returned cs, st1) →
  sync_assinantes [] dry_run st
    = (Returned (mk_stats 0 (length cs) 0 0 0 0 []), st1)
  ∧ trace st1 = trace st ++ [DbSelect table].
Proof.
  intros Hget. split.
  - unfold sync_assinantes. by rewrite Hget.
  - by eapply get_all_clientes_trace.
Qed.

(** C9, as amended.  Two runs over the same scraped sequence, in the same
    mode, from any two states of the service in which the fetch returns the
    same snapshot, take the same per-record decisions and request the same
    writes in the same order.  Their statistics are identical in a dry run,
    and in a live run whenever the update requests meet the same outcomes
    in both. *)
Theorem rerun_same_decisions_and_writes assinantes dry_run
    st_a st_b cs st1_a st1_b :
  get_all_clientes st_a = (Returned cs, st1_a) →
  get_all_clientes st_b = (Returned cs, st1_b) →
  ∃ stats_a st2_a evs_a stats_b st2_b evs_b,
    sync_assinantes assinantes dry_run st_a = (Returned stats_a, st2_a)
    ∧ trace st2_a = trace st_a ++ DbSelect table :: evs_a
    ∧ sync_assinantes assinantes dry_run st_b = (Returned stats_b, st2_b)
    ∧ trace st2_b = trace st_b ++ DbSelect table :: evs_b
    ∧ decisions evs_a = decisions evs_b
    ∧ writes evs_a = writes evs_b
    ∧ (dry_run = true → stats_a = stats_b)
    ∧ (outcomes evs_a = outcomes evs_b → stats_a = stats_b).
Proof.
  intros Hget_a Hget_b.
  destruct (sync_assinantes_post assinantes dry_run st_a cs st1_a Hget_a)
    as (stats_a & st2_a & evs_a & Hrun_a & Htr_a & Hpost_a & _).
  destruct (sync_assinantes_post assinantes dry_run st_b cs st1_b Hget_b)
    as (stats_b & st2_b & evs_b & Hrun_b & Htr_b & Hpost_b & _).
  exists stats_a, st2_a, evs_a, stats_b, st2_b, evs_b.
  pose proof Hpost_a as (_ & _ & _ & _ & _ & Hdec_a & Hwr_a & _).
  pose proof Hpost_b as (_ & _ & _ & _ & _ & Hdec_b & Hwr_b & _).
  apply initial_stats_post in Hpost_a as (? & ? & ? & ? & ? & Hat_a & Her_a).
  apply initial_stats_post in Hpost_b as (? & ? & ? & ? & ? & Hat_b & Her_b).
  repeat (split; [done || congruence|]). split.
  - intros ->. apply Stats_eq; congruence.
  - intros Hout. apply Stats_eq; try congruence.
    + rewrite Hat_a, Hat_b. destruct dry_run; [done|].
      by rewrite !count_succeeded_outcomes, Hout.
    + rewrite Her_a, Her_b. destruct dry_run; [done|].
      by rewrite !count_failed_outcomes, Hout.
Qed.

(** C10.  Once the fetch has returned a snapshot the pass returns
    statistics, and they satisfy: [encontrados + nao_encontrados =
    total_cashbarber] (the number of scraped records); the list of
    unmatched names has [nao_encontrados] elements; in a dry run
    [atualizados = encontrados] and [erros = 0]; in a live run
    [atualizados + erros = encontrados]. *)
Theorem sync_accounting assinantes dry_run st cs st1 :
  get_all_clientes st = (Returned cs, st1) →
  ∃ stats st2,
    sync_assinantes assinantes dry_run st = (Returned stats, st2)
    ∧ total_cashbarber stats = length assinantes
    ∧ encontrados stats + nao_encontrados stats = total_cashbarber stats
    ∧ length (nao_encontrados_lista stats) = nao_encontrados stats
    ∧ (dry_run = true →
       atualizados stats = encontrados stats ∧ erros stats = 0)
    ∧ (dry_run = false →
       atualizados stats + erros stats = encontrados stats).
Proof.
  intros Hget.
  destruct (sync_assinantes_post assinantes dry_run st cs st1 Hget)
    as (stats & st2 & evs & Hrun & Htr & Hpost & _).
  exists stats, st2.
  pose proof Hpost as (_ & _ & _ & _ & _ & _ & _ & Hupd & _).
  apply initial_stats_post in Hpost
    as (Htc & Hts & Henc & Hnao & Hlst & Hat & Her).
  pose proof (count_split (has_match cs) assinantes) as Hsplit.
  pose proof (count_update_outcomes evs) as Hout.
  split; [done|]. split; [done|]. split; [lia|]. split; [|split].
  - rewrite Hlst, Hnao. unfold unmatched_names, count.
    by rewrite length_fmap.
  - intros ->. lia.
  - intros ->. lia.
Qed.
End SyncFacts.

(** ** [update_cliente] and the timestamp column *)

(** C7.  The timestamp column is not best-effort.  On a table that lacks
    [ultima_sincronizacao] the one request of [update_cliente] carries that
    column next to the plan and the status, the service rejects it as a
    whole, and the function reports failure with no field written; the
    same call with [update_timestamp=False] succeeds.  [sync_assinantes]
    always takes the default, so on such a table a live pass records every
    matched record under [erros]. *)
Theorem update_cliente_timestamp_not_optional :
  let st := Sample.no_timestamp_column in
  (Sample.update "1" "Mensal" "ativo" true st).1 = false
  ∧ writes (trace (Sample.update "1" "Mensal" "ativo" true st).2)
    = [("clientes",
        <["ultima_sincronizacao" := "now()"]>
          (<["status_assinatura" := "ativo"]>
            (<["plano_atual" := "Mensal"]> ∅)),
        "1")]
  ∧ MemoryService.rows
      (service (Sample.update "1" "Mensal" "ativo" true st).2)
    = Sample.table_rows
  ∧ (Sample.update "1" "Mensal" "ativo" false st).1 = true
  ∧ (Sample.sync Sample.one_scraped false st).1
    = Returned (mk_stats 1 3 1 0 0 1 []).
Proof. vm_compute. by repeat split. Qed.

(** ** [normalize_status] *)

(** C8.  [normalize_status] is a function on strings (so it is defined on
    every input and depends on nothing else) that maps the four labels of
    its table to their canonical status and every other string, case
    variants of the labels included, to ["desconhecido"]. *)
Theorem normalize_status_table :
  normalize_status "Em dia" = "ativo"
  ∧ normalize_status "Pagamento recusado" = "inadimplente"
  ∧ normalize_status "Cancelado" = "cancelado"
  ∧ normalize_status "Pendente" = "pendente"
  ∧ ∀ status,
      status ∉ ["Em dia"; "Pagamento recusado"; "Cancelado"; "Pendente"] →
      normalize_status status = "desconhecido".
Proof.
  repeat (split; [reflexivity|]).
  intros status Hnot. unfold normalize_status, status_map.
  rewrite !lookup_insert_ne, lookup_empty; [done|..];
    intros <-; apply Hnot; set_solver.
Qed.

Lemma normalize_status_table_witness :
  ("Foo" ∉ ["Em dia"; "Pagamento recusado"; "Cancelado"; "Pendente"])
  ∧ ("em dia" ∉ ["Em dia"; "Pagamento recusado"; "Cancelado"; "Pendente"])
  ∧ normalize_status "Foo" = "desconhecido"
  ∧ normalize_status "em dia" = "desconhecido".
Proof.
  assert (H1 : "Foo" ∉ ["Em dia"; "Pagamento recusado"; "Cancelado"; "Pendente"]).
  { intros H. repeat (apply elem_of_cons in H as [H|H]; [discriminate H|]).
    by apply elem_of_nil in H. }
  assert (H2 : "em dia" ∉ ["Em dia"; "Pagamento recusado"; "Cancelado"; "Pendente"]).
  { intros H. repeat (apply elem_of_cons in H as [H|H]; [discriminate H|]).
    by apply elem_of_nil in H. }
  destruct normalize_status_table as (_ & _ & _ & _ & Hother).
  split; [exact H1|]. split; [exact H2|].
  split; [exact (Hother "Foo" H1)|exact (Hother "em dia" H2)].
Defined.

(** ** The matcher on concrete inputs *)

Ltac no_exact_by_evaluation :=
  unfold no_exact;
  repeat (apply Forall_cons; split;
          [let H := fresh in intros H; vm_compute in H; discriminate H|]);
  by apply Forall_nil.

(** The query " Joao Silva" against a near miss followed by two clients
    spelled like it: the first of the two is returned. *)
Lemma find_exact_match_first_witness :
  no_exact Py.lower Py.strip " Joao Silva" [Sample.joao_silvo]
  ∧ exact Py.lower Py.strip " Joao Silva" Sample.joao_silva_upper
  ∧ find_cliente_by_name Py.lower Py.strip Py.ratio " Joao Silva"
      ([Sample.joao_silvo]
         ++ Sample.joao_silva_upper :: [Sample.joao_silva])
      default_threshold
    = Some Sample.joao_silva_upper.
Proof.
  assert (Hne : no_exact Py.lower Py.strip " Joao Silva" [Sample.joao_silvo])
    by no_exact_by_evaluation.
  assert (Hex : exact Py.lower Py.strip " Joao Silva" Sample.joao_silva_upper)
    by (vm_compute; reflexivity).
  split; [exact Hne|]. split; [exact Hex|].
  exact (find_exact_match_first Py.lower Py.strip Py.ratio " Joao Silva"
           [Sample.joao_silvo] Sample.joao_silva_upper [Sample.joao_silva]
           default_threshold Hne Hex).
Defined.

(** C2 as stated fails at threshold 0: the only client shares no character
    with the query, so its score 0.0 reaches the threshold, and nothing is
    returned. *)
Lemma find_threshold_gate_counterexample :
  ¬ (∀ q cs c t,
       no_exact Py.lower Py.strip q cs →
       first_best Py.lower Py.strip Py.ratio q cs c →
       (find_cliente_by_name Py.lower Py.strip Py.ratio q cs t = Some c
        ↔ (t <= score Py.lower Py.strip Py.ratio q c)%Q)).
Proof.
  intros H.
  assert (Hne : no_exact Py.lower Py.strip "ana" [Sample.bob])
    by no_exact_by_evaluation.
  assert (Hfb : first_best Py.lower Py.strip Py.ratio "ana" [Sample.bob]
                  Sample.bob).
  { exists [], []. split; [reflexivity|]. split; constructor. }
  destruct (H "ana" [Sample.bob] Sample.bob 0%Q Hne Hfb) as [_ Hback].
  assert (Hle : (0 <= score Py.lower Py.strip Py.ratio "ana" Sample.bob)%Q)
    by (vm_compute; discriminate).
  specialize (Hback Hle). vm_compute in Hback. discriminate Hback.
Qed.

Lemma find_threshold_gate_witness :
  let q := "joao silva" in
  let cs := [Sample.bob; Sample.joao_silvo; Sample.joao_silve] in
  no_exact Py.lower Py.strip q cs
  ∧ ((∀ c t, first_best Py.lower Py.strip Py.ratio q cs c →
        (find_cliente_by_name Py.lower Py.strip Py.ratio q cs t = Some c
         ↔ (t <= score Py.lower Py.strip Py.ratio q c)%Q
           ∧ (0 < score Py.lower Py.strip Py.ratio q c)%Q))
     ∧ (∀ t, Forall (λ x, (score Py.lower Py.strip Py.ratio q x < t)%Q) cs →
          find_cliente_by_name Py.lower Py.strip Py.ratio q cs t = None)
     ∧ (∀ t t' c, (t' <= t)%Q →
          find_cliente_by_name Py.lower Py.strip Py.ratio q cs t = Some c →
          find_cliente_by_name Py.lower Py.strip Py.ratio q cs t' = Some c)).
Proof.
  intros q cs.
  assert (Hne : no_exact Py.lower Py.strip q cs) by no_exact_by_evaluation.
  split; [exact Hne|].
  exact (find_threshold_gate Py.lower Py.strip Py.ratio q cs Hne).
Defined.

(** C3 as stated fails when the tie is at score 0.0: both clients attain
    the maximal score, the threshold 0 is reached, and the first of them is
    not returned. *)
Lemma find_tie_keeps_first_counterexample :
  ¬ (∀ q cs c t,
       no_exact Py.lower Py.strip q cs →
       first_of_tied_best Py.lower Py.strip Py.ratio q cs c →
       (t <= score Py.lower Py.strip Py.ratio q c)%Q →
       find_cliente_by_name Py.lower Py.strip Py.ratio q cs t = Some c).
Proof.
  intros H.
  assert (Hne : no_exact Py.lower Py.strip "ana" [Sample.bob; Sample.cyd])
    by no_exact_by_evaluation.
  assert (Htie : first_of_tied_best Py.lower Py.strip Py.ratio "ana"
                   [Sample.bob; Sample.cyd] Sample.bob).
  { exists [], [Sample.cyd]. split; [reflexivity|].
    split; [constructor|]. split.
    - constructor; [|constructor]. vm_compute. discriminate.
    - constructor. vm_compute. reflexivity. }
  assert (Hle : (0 <= score Py.lower Py.strip Py.ratio "ana" Sample.bob)%Q)
    by (vm_compute; discriminate).
  specialize (H "ana" [Sample.bob; Sample.cyd] Sample.bob 0%Q Hne Htie Hle).
  vm_compute in H. discriminate H.
Qed.

(** Two clients tie at 0.9 for the query "joao silva", after one that
    scores lower: the first of the two is returned at the default
    threshold. *)
Lemma find_tie_keeps_first_witness :
  let q := "joao silva" in
  let cs := [Sample.bob; Sample.joao_silvo; Sample.joao_silve] in
  no_exact Py.lower Py.strip q cs
  ∧ first_of_tied_best Py.lower Py.strip Py.ratio q cs Sample.joao_silvo
  ∧ (0 < score Py.lower Py.strip Py.ratio q Sample.joao_silvo)%Q
  ∧ (default_threshold
       <= score Py.lower Py.strip Py.ratio q Sample.joao_silvo)%Q
  ∧ find_cliente_by_name Py.lower Py.strip Py.ratio q cs default_threshold
    = Some Sample.joao_silvo.
Proof.
  intros q cs.
  assert (Hne : no_exact Py.lower Py.strip q cs) by no_exact_by_evaluation.
  assert (Htie : first_of_tied_best Py.lower Py.strip Py.ratio q cs
                   Sample.joao_silvo).
  { exists [Sample.bob], [Sample.joao_silve]. split; [reflexivity|].
    split; [|split].
    - constructor; [|constructor]. vm_compute. reflexivity.
    - constructor; [|constructor]. vm_compute. discriminate.
    - constructor. vm_compute. reflexivity. }
  assert (Hpos : (0 < score Py.lower Py.strip Py.ratio q Sample.joao_silvo)%Q)
    by (vm_compute; reflexivity).
  assert (Hle : (default_threshold
                   <= score Py.lower Py.strip Py.ratio q Sample.joao_silvo)%Q)
    by (vm_compute; discriminate).
  split; [exact Hne|]. split; [exact Htie|].
  split; [exact Hpos|]. split; [exact Hle|].
  exact (find_tie_keeps_first Py.lower Py.strip Py.ratio q cs default_threshold
           Sample.joao_silvo Hne Htie Hpos Hle).
Defined.

(** ** The pass on concrete inputs *)

(** On the three-row table every state of the examples fetches the same
    snapshot. *)
Lemma fetch_healthy :
  Sample.fetch Sample.healthy
  = (Returned Sample.snapshot, (Sample.fetch Sample.healthy).2).
Proof. vm_compute. reflexivity. Defined.

Lemma fetch_second_fails :
  Sample.fetch Sample.second_fails
  = (Returned Sample.snapshot, (Sample.fetch Sample.second_fails).2).
Proof. vm_compute. reflexivity. Defined.

Lemma fetch_first_fails :
  Sample.fetch Sample.first_fails
  = (Returned Sample.snapshot, (Sample.fetch Sample.first_fails).2).
Proof. vm_compute. reflexivity. Defined.

Lemma fetch_after_first_fails :
  Sample.fetch (Sample.sync Sample.one_scraped false Sample.first_fails).2
  = (Returned Sample.snapshot,
     (Sample.fetch
        (Sample.sync Sample.one_scraped false Sample.first_fails).2).2).
Proof. vm_compute. reflexivity. Defined.

(** Five records, three of them matched, the second update failing: the
    live pass ends with [atualizados = 2] and [erros = 1], having gone
    through all five records. *)
Example sync_second_fails :
  (Sample.sync Sample.scraped false Sample.second_fails).1
  = Returned (mk_stats 5 3 3 2 2 1 ["Ana Costa"; "Zuleica"])
  ∧ outcomes (trace (Sample.sync Sample.scraped false Sample.second_fails).2)
    = [true; false; true].
Proof. vm_compute. by split. Qed.

(** C4 as stated fails when an update fails: one matched record, whose
    update meets a transport failure, is counted under [atualizados] by the
    dry run and under [erros] by the live run. *)
Lemma dry_run_sends_no_update_counterexample :
  ¬ (∀ assinantes (st : state MemoryService.t),
       (Sample.sync assinantes true st).1
       = (Sample.sync assinantes false st).1).
Proof.
  intros H. specialize (H Sample.one_scraped Sample.first_fails).
  vm_compute in H. discriminate H.
Qed.

Lemma dry_run_sends_no_update_witness :
  let st := Sample.second_fails in
  let cs := Sample.snapshot in
  let assinantes := Sample.scraped in
  Sample.fetch st = (Returned cs, (Sample.fetch st).2)
  ∧ ∃ stats st2 evs,
      Sample.sync assinantes true st = (Returned stats, st2)
      ∧ trace st2
        = trace st
            ++ DbSelect (SupabaseIntegration.table_name Sample.self) :: evs
      ∧ count is_update evs = 0
      ∧ service st2 = service (Sample.fetch st).2
      ∧ atualizados stats
        = count (has_match Py.lower Py.strip Py.ratio cs) assinantes
      ∧ encontrados stats
        = count (has_match Py.lower Py.strip Py.ratio cs) assinantes
      ∧ ∀ st' st1',
          Sample.fetch st' = (Returned cs, st1') →
          ∃ stats' st2' evs',
            Sample.sync assinantes false st' = (Returned stats', st2')
            ∧ trace st2'
              = trace st'
                  ++ DbSelect (SupabaseIntegration.table_name Sample.self)
                     :: evs'
            ∧ (stats' = stats ↔ count update_failed evs' = 0).
Proof.
  intros st cs assinantes. split; [exact fetch_second_fails|].
  exact (dry_run_sends_no_update MemoryService.client Sample.getenv
           Py.lower Py.strip Py.ratio Sample.self assinantes st cs
           (Sample.fetch st).2 fetch_second_fails).
Defined.

(** Five records of which three are matched, on a service that fails the
    second request it receives: the answers of the service are
    [true; false; true], and the pass ends with [atualizados = 2] and
    [erros = 1].  And one matched record on a service that fails its
    request: the record goes under [erros]. *)
Lemma live_run_counts_failures_witness :
  let st := Sample.second_fails in
  let cs := Sample.snapshot in
  let assinantes := Sample.scraped in
  let a := Sample.assinante "Joao Silva" "Mensal" "ativo" in
  let c := Sample.cliente "1" "Joao Silva" in
  let st0 := Sample.first_fails in
  let s0 := mk_stats 1 3 0 0 0 0 [] in
  let requests :=
    omap (write_for Sample.getenv Py.lower Py.strip Py.ratio Sample.self cs)
      assinantes in
  Sample.fetch st = (Returned cs, (Sample.fetch st).2)
  ∧ find_cliente_by_name Py.lower Py.strip Py.ratio (Assinante.nome a) cs
      default_threshold = Some c
  ∧ (update_eq_id MemoryService.client
       (SupabaseIntegration.table_name Sample.self)
       (update_data_of Sample.getenv Sample.self (Assinante.plano a)
          (Assinante.status a) true)
       (ClienteSupabase.id c) (service st0)).1 = Raised
  ∧ (∃ st0',
       sync_record MemoryService.client Sample.getenv Py.lower Py.strip
         Py.ratio Sample.self cs false (s0, st0) a
       = (inc_erros (inc_encontrados s0), st0')
       ∧ Sample.update (ClienteSupabase.id c) (Assinante.plano a)
           (Assinante.status a) true
           (emit (LogMatch (Assinante.nome a) (ClienteSupabase.nome c)) st0)
         = (false, st0'))
  ∧ count (has_match Py.lower Py.strip Py.ratio cs) assinantes = 3
  ∧ (serve MemoryService.client (service (Sample.fetch st).2) requests).1
    = [true; false; true]
  ∧ ∃ stats st2 evs,
      Sample.sync assinantes false st = (Returned stats, st2)
      ∧ trace st2
        = trace st
            ++ DbSelect (SupabaseIntegration.table_name Sample.self) :: evs
      ∧ writes evs = requests
      ∧ outcomes evs = [true; false; true]
      ∧ atualizados stats = 2
      ∧ erros stats = 1.
Proof.
  intros st cs assinantes a c st0 s0 requests.
  assert (Hfind : find_cliente_by_name Py.lower Py.strip Py.ratio
                    (Assinante.nome a) cs default_threshold = Some c)
    by (vm_compute; reflexivity).
  assert (Hmatched : count (has_match Py.lower Py.strip Py.ratio cs)
                       assinantes = 3)
    by (vm_compute; reflexivity).
  assert (Hanswers :
            (serve MemoryService.client (service (Sample.fetch st).2)
               requests).1 = [true; false; true])
    by (vm_compute; reflexivity).
  destruct (live_run_counts_failures MemoryService.client Sample.getenv
              Py.lower Py.strip Py.ratio Sample.self assinantes st cs
              (Sample.fetch st).2 fetch_second_fails)
    as [Hrecord (stats & st2 & evs & Hrun & Htr & Hwr & Hserve & _ & _
                 & Her & Hat & _ & Hthree)].
  fold requests in Hserve, Hwr. rewrite Hserve in Hanswers.
  cbn [fst] in Hanswers.
  assert (Hfailed : count negb (outcomes evs) = 1)
    by (rewrite Hanswers; reflexivity).
  destruct (Hthree Hmatched Hfailed) as [Hat2 Her1].
  destruct (Hrecord s0 st0 a c
              (update_eq_id MemoryService.client
                 (SupabaseIntegration.table_name Sample.self)
                 (update_data_of Sample.getenv Sample.self (Assinante.plano a)
                    (Assinante.status a) true)
                 (ClienteSupabase.id c) (service st0)).2
              Hfind eq_refl)
    as (st0' & Hrec & _ & Hupd).
  split; [exact fetch_second_fails|]. split; [exact Hfind|].
  split; [reflexivity|].
  split; [exists st0'; split; [exact Hrec|exact Hupd]|].
  split; [exact Hmatched|]. split; [vm_compute; reflexivity|].
  exists stats, st2, evs.
  split; [exact Hrun|]. split; [exact Htr|]. split; [exact Hwr|].
  split; [exact Hanswers|]. split; [exact Hat2|exact Her1].
Defined.

(** C6 as stated fails on a table with rows: the pass over no records still
    fetches the snapshot, one request, and reports its size, 3, as
    [total_supabase]. *)
Lemma sync_empty_counterexample :
  ¬ (∀ dry_run (st : state MemoryService.t) stats st',
       Sample.sync [] dry_run st = (Returned stats, st') →
       total_supabase stats = 0)
  ∧ ¬ (∀ dry_run (st : state MemoryService.t) stats st',
         Sample.sync [] dry_run st = (Returned stats, st') →
         count is_request (trace st') = count is_request (trace st)).
Proof.
  split; intros H.
  - specialize (H true Sample.healthy _ _ eq_refl).
    vm_compute in H. discriminate H.
  - specialize (H true Sample.healthy _ _ eq_refl).
    vm_compute in H. discriminate H.
Qed.

Lemma sync_empty_witness :
  let st := Sample.healthy in
  Sample.fetch st = (Returned Sample.snapshot, (Sample.fetch st).2)
  ∧ Sample.sync [] true st
    = (Returned (mk_stats 0 (length Sample.snapshot) 0 0 0 0 []),
       (Sample.fetch st).2)
  ∧ trace (Sample.fetch st).2
    = trace st ++ [DbSelect (SupabaseIntegration.table_name Sample.self)].
Proof.
  intros st. split; [exact fetch_healthy|].
  exact (sync_empty MemoryService.client Sample.getenv Py.lower Py.strip
           Py.ratio Sample.self true st Sample.snapshot
           (Sample.fetch st).2 fetch_healthy).
Defined.

(** C9 as stated fails for a live run: the first run meets a transport
    failure on its update, the second run, started from the state the first
    one left and fetching the same snapshot, does not; the first reports
    [erros = 1], the second [atualizados = 1]. *)
Lemma rerun_same_decisions_and_writes_counterexample :
  ¬ (∀ assinantes (st_a st_b : state MemoryService.t) cs st1_a st1_b,
       Sample.fetch st_a = (Returned cs, st1_a) →
       Sample.fetch st_b = (Returned cs, st1_b) →
       (Sample.sync assinantes false st_a).1
       = (Sample.sync assinantes false st_b).1).
Proof.
  intros H.
  specialize (H Sample.one_scraped Sample.first_fails
                (Sample.sync Sample.one_scraped false Sample.first_fails).2
                _ _ _ fetch_first_fails fetch_after_first_fails).
  vm_compute in H. discriminate H.
Qed.

Lemma rerun_same_decisions_and_writes_witness :
  let st_a := Sample.first_fails in
  let st_b := (Sample.sync Sample.one_scraped false Sample.first_fails).2 in
  let cs := Sample.snapshot in
  let assinantes := Sample.one_scraped in
  Sample.fetch st_a = (Returned cs, (Sample.fetch st_a).2)
  ∧ Sample.fetch st_b = (Returned cs, (Sample.fetch st_b).2)
  ∧ ∃ stats_a st2_a evs_a stats_b st2_b evs_b,
      Sample.sync assinantes false st_a = (Returned stats_a, st2_a)
      ∧ trace st2_a
        = trace st_a
            ++ DbSelect (SupabaseIntegration.table_name Sample.self) :: evs_a
      ∧ Sample.sync assinantes false st_b = (Returned stats_b, st2_b)
      ∧ trace st2_b
        = trace st_b
            ++ DbSelect (SupabaseIntegration.table_name Sample.self) :: evs_b
      ∧ decisions evs_a = decisions evs_b
      ∧ writes evs_a = writes evs_b
      ∧ (false = true → stats_a = stats_b)
      ∧ (outcomes evs_a = outcomes evs_b → stats_a = stats_b).
Proof.
  intros st_a st_b cs assinantes.
  split; [exact fetch_first_fails|]. split; [exact fetch_after_first_fails|].
  exact (rerun_same_decisions_and_writes MemoryService.client Sample.getenv
           Py.lower Py.strip Py.ratio Sample.self assinantes false
           st_a st_b cs (Sample.fetch st_a).2 (Sample.fetch st_b).2
           fetch_first_fails fetch_after_first_fails).
Defined.

Lemma sync_accounting_witness :
  let st := Sample.second_fails in
  let assinantes := Sample.scraped in
  Sample.fetch st = (Returned Sample.snapshot, (Sample.fetch st).2)
  ∧ ∃ stats st2,
      Sample.sync assinantes false st = (Returned stats, st2)
      ∧ total_cashbarber stats = length assinantes
      ∧ encontrados stats + nao_encontrados stats = total_cashbarber stats
      ∧ length (nao_encontrados_lista stats) = nao_encontrados stats
      ∧ (false = true →
         atualizados stats = encontrados stats ∧ erros stats = 0)
      ∧ (false = false →
         atualizados stats + erros stats = encontrados stats).
Proof.
  intros st assinantes. split; [exact fetch_second_fails|].
  exact (sync_accounting MemoryService.client Sample.getenv Py.lower Py.strip
           Py.ratio Sample.self assinantes false st Sample.snapshot
           (Sample.fetch st).2 fetch_second_fails).
Defined.

(** * Further properties of the code *)

(** ** [find_cliente_by_name]: what a result means *)

Section MatcherResults.
Variable lower : string → string.
Variable strip : string → string.
Variable ratio : string → string → Q.

Local Abbreviation lower_strip := (lower_strip lower strip).
Local Abbreviation scan_step := (scan_step lower strip ratio).
Local Abbreviation scan := (scan lower strip ratio).
Local Abbreviation find_cliente_by_name := (find_cliente_by_name lower strip ratio).
Local Abbreviation score := (score lower strip ratio).
Local Abbreviation exact := (exact lower strip).
Local Abbreviation no_exact := (no_exact lower strip).
Local Abbreviation first_best := (first_best lower strip ratio).

(** A list either has no exact match or splits at its first one. *)
Lemma first_exact_split q cs :
  no_exact q cs
  ∨ ∃ before c after,
      cs = before ++ c :: after ∧ no_exact q before ∧ exact q c.
Proof.
  induction cs as [|x cs IH].
  - left. constructor.
  - destruct (String.eqb (lower_strip q) (lower_strip (ClienteSupabase.nome x)))
      eqn:E.
    + apply String.eqb_eq in E. right. exists [], x, cs.
      split; [done|]. split; [constructor|exact E].
    + apply String.eqb_neq in E.
      destruct IH as [Hne|(before & c & after & -> & Hne & Hex)].
      * left. by constructor.
      * right. exists (x :: before), c, after.
        split; [done|]. split; [by constructor|done].
Qed.

Lemma find_at_first_exact q before c after t :
  no_exact q before → exact q c →
  find_cliente_by_name q (before ++ c :: after) t = Some c.
Proof.
  intros Hne Hex. unfold find_cliente_by_name. rewrite scan_app.
  destruct (scan_no_exact lower strip ratio q before None 0 Hne)
    as [[-> _]|(c0 & -> & _)]; simpl; by rewrite scan_step_exact.
Qed.

(** X1.  A returned client is one of the candidates, and it is either an
    exact match or, no name being equal to the query, the first candidate
    of maximal score, with a score that is positive and reaches the
    threshold. *)
Theorem find_result_justified q cs t c :
  find_cliente_by_name q cs t = Some c →
  c ∈ cs
  ∧ (exact q c
     ∨ (no_exact q cs ∧ first_best q cs c
        ∧ (t <= score q c)%Q ∧ (0 < score q c)%Q)).
Proof.
  intros Hfind.
  destruct (first_exact_split q cs) as [Hne|(before & c0 & after & -> & Hne & Hex)].
  - destruct (find_some_first_best lower strip ratio q cs t c Hne Hfind)
      as (Hfb & Hpos & Ht).
    split; [by eapply first_best_in|]. right. by repeat split.
  - rewrite (find_at_first_exact q before c0 after t Hne Hex) in Hfind.
    injection Hfind as <-. split; [set_solver|by left].
Qed.

(** X2.  No match is reported exactly when no candidate's name equals the
    query and every candidate scores below the threshold or not above 0. *)
Theorem find_none_iff q cs t :
  find_cliente_by_name q cs t = None
  ↔ no_exact q cs
    ∧ Forall (λ c, (score q c < t)%Q ∨ (score q c <= 0)%Q) cs.
Proof.
  split.
  - intros Hnone.
    destruct (first_exact_split q cs)
      as [Hne|(before & c0 & after & -> & Hne & Hex)].
    + split; [done|].
      destruct (find_no_exact lower strip ratio q cs t Hne)
        as [[_ Hall]|(c0 & Hfb & Hpos & Heq)].
      * eapply Forall_impl; [exact Hall|]. intros x Hx. by right.
      * rewrite Heq in Hnone.
        destruct (Qle_bool t (score q c0)) eqn:E; [done|].
        apply Forall_forall. intros x Hx. left.
        eapply Qle_lt_trans; [by eapply first_best_max|].
        apply Qnot_le_lt. intros Hle. apply Qle_bool_iff in Hle. congruence.
    + by rewrite (find_at_first_exact q before c0 after t Hne Hex) in Hnone.
  - intros [Hne Hall].
    destruct (find_no_exact lower strip ratio q cs t Hne)
      as [[Hnone _]|(c0 & Hfb & Hpos & ->)]; [done|].
    rewrite Forall_forall in Hall.
    destruct (Hall c0 (first_best_in _ _ _ _ _ _ Hfb)) as [Hlt|Hle].
    + destruct (Qle_bool t (score q c0)) eqn:E; [|done].
      apply Qle_bool_iff in E. exfalso. exact (Qlt_not_le _ _ Hlt E).
    + exfalso. exact (Qlt_not_le _ _ Hpos Hle).
Qed.
End MatcherResults.

Lemma find_result_justified_witness :
  let q := "joao silva" in
  let cs := [Sample.bob; Sample.joao_silvo; Sample.joao_silve] in
  find_cliente_by_name Py.lower Py.strip Py.ratio q cs default_threshold
    = Some Sample.joao_silvo
  ∧ (Sample.joao_silvo ∈ cs
     ∧ (exact Py.lower Py.strip q Sample.joao_silvo
        ∨ (no_exact Py.lower Py.strip q cs
           ∧ first_best Py.lower Py.strip Py.ratio q cs Sample.joao_silvo
           ∧ (default_threshold
                <= score Py.lower Py.strip Py.ratio q Sample.joao_silvo)%Q
           ∧ (0 < score Py.lower Py.strip Py.ratio q Sample.joao_silvo)%Q))).
Proof.
  intros q cs.
  assert (Hfind : find_cliente_by_name Py.lower Py.strip Py.ratio q cs
                    default_threshold = Some Sample.joao_silvo)
    by (vm_compute; reflexivity).
  split; [exact Hfind|].
  exact (find_result_justified Py.lower Py.strip Py.ratio q cs
           default_threshold Sample.joao_silvo Hfind).
Defined.

(** ** The fetch, the payload and the writes of a pass *)

Section PassDetails.
Context {W : Type}.
Variable client : Client W.
Variable getenv : string → option string.
Variable lower : string → string.
Variable strip : string → string.
Variable ratio : string → string → Q.
Variable self : SupabaseIntegration.t.

Local Abbreviation get_all_clientes := (get_all_clientes client self).
Local Abbreviation row_to_cliente := (row_to_cliente self).
Local Abbreviation update_data_of := (update_data_of getenv self).
Local Abbreviation sync_record := (sync_record client getenv lower strip ratio self).
Local Abbreviation sync_assinantes :=
  (sync_assinantes client getenv lower strip ratio self).
Local Abbreviation has_match := (has_match lower strip ratio).
Local Abbreviation decision := (decision lower strip ratio).
Local Abbreviation write_for := (write_for getenv lower strip ratio self).
Local Abbreviation unmatched_names := (unmatched_names lower strip ratio).
Local Abbreviation table := (SupabaseIntegration.table_name self).
Local Abbreviation column_nome := (SupabaseIntegration.column_nome self).
Local Abbreviation column_plano := (SupabaseIntegration.column_plano self).
Local Abbreviation column_status := (SupabaseIntegration.column_status self).
Local Abbreviation timestamp_column :=
  (default "ultima_sincronizacao" (getenv "COLUMN_TIMESTAMP")).
Local Abbreviation reflects := (reflects self).

Lemma row_to_cliente_Some row c :
  row_to_cliente row = Some c ↔ reflects row c.
Proof.
  unfold row_to_cliente, reflects. split.
  - destruct (row !! "id") as [i|]; [|done]. by intros [= <-].
  - intros (Hid & Hn & Ht & Hp & Hs). rewrite Hid.
    destruct c. simpl in *. by subst.
Qed.

(** X3.  When the select returns, [get_all_clientes] returns one client
    per row, in the order of the rows, each reflecting its row (a row
    without the name column gives the empty name), provided every row has
    an [id]; a single row without [id] makes the whole fetch raise.  Either
    way one request was sent. *)
Theorem get_all_clientes_one_per_row st data w :
  select_all client table (service st) = (Returned data, w) →
  let st1 := mk_state w (trace st ++ [DbSelect table]) in
  (∀ cs, get_all_clientes st = (Returned cs, st1) ↔ Forall2 reflects data cs)
  ∧ (get_all_clientes st = (Raised, st1)
     ↔ Exists (λ row, row !! "id" = None) data).
Proof.
  intros Hsel st1. unfold get_all_clientes. rewrite Hsel. fold st1.
  split.
  - intros cs.
    assert (Hiff : mapM row_to_cliente data = Some cs ↔ Forall2 reflects data cs).
    { rewrite mapM_Some. split; intros HF; (eapply Forall2_impl; [exact HF|]);
        intros row c; apply row_to_cliente_Some. }
    destruct (mapM row_to_cliente data) as [cs'|] eqn:E.
    + split.
      * intros [= <-]. by apply Hiff.
      * intros HF. apply Hiff in HF. congruence.
    + split; [done|]. intros HF. apply Hiff in HF. congruence.
  - destruct (mapM row_to_cliente data) as [cs'|] eqn:E.
    + split; [done|]. intros Hex.
      assert (Hn : mapM row_to_cliente data = None).
      { apply mapM_None. eapply Exists_impl; [exact Hex|].
        intros row Hrow. unfold row_to_cliente. by rewrite Hrow. }
      congruence.
    + split; [|done]. intros _. apply mapM_None in E.
      eapply Exists_impl; [exact E|]. intros row.
      unfold row_to_cliente. by destruct (row !! "id").
Qed.

(** X4.  The dictionary [update_cliente] sends is known key by key.
    Without [update_timestamp] it holds the status under the status column
    and the plan under the plan column, and nothing else: the timestamp
    column is left out (unless it is one of those two), and with the plan
    and the status configured to the same column the plan is not sent at
    all.  With [update_timestamp] it holds in addition ['now()'] under the
    timestamp column, which takes the place of the plan or the status if
    the names coincide. *)
Theorem update_data_columns plano status :
  (∀ k, update_data_of plano status false !! k
        = if decide (k = column_status) then Some status
          else if decide (k = column_plano) then Some plano
          else None)
  ∧ (∀ k, update_data_of plano status true !! k
          = if decide (k = timestamp_column) then Some "now()"
            else update_data_of plano status false !! k)
  ∧ (timestamp_column ≠ column_plano → timestamp_column ≠ column_status →
     update_data_of plano status false !! timestamp_column = None)
  ∧ (∀ b k, k ≠ column_plano → k ≠ column_status → k ≠ timestamp_column →
       update_data_of plano status b !! k = None)
  ∧ update_data_of plano status true !! timestamp_column = Some "now()"
  ∧ (∀ b, (b = true → column_status ≠ timestamp_column) →
       update_data_of plano status b !! column_status = Some status)
  ∧ (∀ b, column_plano ≠ column_status →
       (b = true → column_plano ≠ timestamp_column) →
       update_data_of plano status b !! column_plano = Some plano)
  ∧ (column_plano = column_status →
     update_data_of plano status false = {[column_status := status]}).
Proof.
  assert (Hfalse : ∀ k, update_data_of plano status false !! k
                        = if decide (k = column_status) then Some status
                          else if decide (k = column_plano) then Some plano
                          else None).
  { intros k. unfold update_data_of.
    destruct (decide (k = column_status)) as [->|Hs].
    - by rewrite lookup_insert_eq.
    - rewrite lookup_insert_ne by done.
      destruct (decide (k = column_plano)) as [->|Hp].
      + by rewrite lookup_insert_eq.
      + by rewrite lookup_insert_ne, lookup_empty. }
  assert (Htrue : ∀ k, update_data_of plano status true !! k
                       = if decide (k = timestamp_column) then Some "now()"
                         else update_data_of plano status false !! k).
  { intros k. unfold update_data_of.
    destruct (decide (k = timestamp_column)) as [->|Ht].
    - by rewrite lookup_insert_eq.
    - by rewrite lookup_insert_ne. }
  split; [exact Hfalse|]. split; [exact Htrue|]. repeat split.
  - intros Hp Hs. rewrite Hfalse. by repeat case_decide.
  - intros b k Hp Hs Ht. destruct b; rewrite ?Htrue, Hfalse;
      by repeat case_decide.
  - rewrite Htrue. by case_decide.
  - intros b Hts. destruct b; rewrite ?Htrue, Hfalse; repeat case_decide;
      try done. by destruct Hts.
  - intros b Hps Hts. destruct b; rewrite ?Htrue, Hfalse; repeat case_decide;
      try done. by destruct Hts.
  - intros Heq. unfold update_data_of. rewrite Heq.
    by rewrite insert_insert_eq, insert_empty.
Qed.

(** X5.  When the fetch fails, because the select raises or because a row
    has no [id], the pass raises whatever the records and the mode, having
    sent the select and nothing else. *)
Theorem sync_aborts_when_fetch_fails assinantes dry_run st :
  (select_all client table (service st)).1 = Raised
  ∨ (∃ data,
       (select_all client table (service st)).1 = Returned data
       ∧ Exists (λ row, row !! "id" = None) data) →
  sync_assinantes assinantes dry_run st
  = (Raised,
     mk_state (select_all client table (service st)).2
       (trace st ++ [DbSelect table])).
Proof.
  intros Hfail. unfold sync_assinantes, get_all_clientes.
  destruct (select_all client table (service st)) as [[data|] w]; simpl in *.
  - destruct Hfail as [|(data' & [= <-] & Hex)]; [done|].
    assert (Hn : mapM row_to_cliente data = None).
    { apply mapM_None. eapply Exists_impl; [exact Hex|].
      intros row Hrow. unfold row_to_cliente. by rewrite Hrow. }
    by rewrite Hn.
  - done.
Qed.

(** X6.  Once the fetch has returned, the events of a pass after the
    select show one decision per scraped record, in input order, and, in a
    live run, one write per matched record, in input order, each keyed by
    the matched client's [id] and carrying the record's plan and status
    with the timestamp; a dry run writes nothing; no second select is
    sent. *)
Theorem sync_decisions_and_writes assinantes dry_run st cs st1 :
  get_all_clientes st = (Returned cs, st1) →
  ∃ stats st2 evs,
    sync_assinantes assinantes dry_run st = (Returned stats, st2)
    ∧ trace st2 = trace st ++ DbSelect table :: evs
    ∧ decisions evs = decision cs <$> assinantes
    ∧ writes evs = (if dry_run then [] else omap (write_for cs) assinantes)
    ∧ count is_request evs = count is_update evs.
Proof.
  intros Hget.
  destruct (sync_assinantes_post client getenv lower strip ratio self
              assinantes dry_run st cs st1 Hget)
    as (stats & st2 & evs & Hrun & Htr & Hpost & _).
  exists stats, st2, evs.
  destruct Hpost as (_ & _ & _ & _ & _ & Hdec & Hwr & _ & Hreq & _).
  by repeat split.
Qed.

(** X7.  The matching side of the statistics depends on the records and
    the snapshot alone, not on the mode nor on how the updates fare:
    [total_supabase] is the size of the snapshot, [encontrados] the number
    of records with a match, and [nao_encontrados_lista] holds the names
    of the records without one, in input order, repeated names
    included. *)
Theorem sync_matching_statistics assinantes dry_run st cs st1 :
  get_all_clientes st = (Returned cs, st1) →
  ∃ stats st2,
    sync_assinantes assinantes dry_run st = (Returned stats, st2)
    ∧ total_supabase stats = length cs
    ∧ encontrados stats = count (has_match cs) assinantes
    ∧ nao_encontrados_lista stats
      = Assinante.nome <$>
          List.filter
            (λ a, bool_decide
                    (find_cliente_by_name lower strip ratio (Assinante.nome a)
                       cs default_threshold = None))
            assinantes.
Proof.
  intros Hget.
  destruct (sync_assinantes_post client getenv lower strip ratio self
              assinantes dry_run st cs st1 Hget)
    as (stats & st2 & evs & Hrun & Htr & Hpost & _).
  exists stats, st2.
  apply initial_stats_post in Hpost as (_ & Hts & Henc & _ & Hlst & _).
  repeat (split; [done|]). rewrite Hlst. unfold unmatched_names. f_equal.
  apply List.filter_ext. intros a. unfold has_match.
  by destruct (find_cliente_by_name _ _ _ _ _ _).
Qed.
End PassDetails.

(** ** The pass over dictionaries, [sync_from_data] *)

Lemma read_assinante_to_dict a : read_assinante (to_dict a) = Some a.
Proof. destruct a. reflexivity. Qed.

Lemma read_assinante_None d :
  read_assinante d = None
  ↔ d !! "nome" = None ∨ d !! "plano" = None ∨ d !! "status" = None.
Proof.
  unfold read_assinante.
  destruct (d !! "nome"), (d !! "plano"), (d !! "status");
    intuition discriminate.
Qed.

Section DictPass.
Context {W : Type}.
Variable client : Client W.
Variable getenv : string → option string.
Variable lower : string → string.
Variable strip : string → string.
Variable ratio : string → string → Q.
Variable self : SupabaseIntegration.t.

Local Abbreviation get_all_clientes := (get_all_clientes client self).
Local Abbreviation sync_record := (sync_record client getenv lower strip ratio self).
Local Abbreviation sync_assinantes :=
  (sync_assinantes client getenv lower strip ratio self).
Local Abbreviation sync_dicts_loop :=
  (sync_dicts_loop getenv lower strip ratio client self).
Local Abbreviation sync_assinantes_dicts :=
  (sync_assinantes_dicts getenv lower strip ratio client self).
Local Abbreviation decision := (decision lower strip ratio).
Local Abbreviation write_for := (write_for getenv lower strip ratio self).
Local Abbreviation table := (SupabaseIntegration.table_name self).

(** Dictionaries made by [to_dict] go through the loop like the records
    they came from. *)
Lemma sync_dicts_loop_to_dict cs dry_run good ds acc :
  sync_dicts_loop cs dry_run ((to_dict <$> good) ++ ds) acc
  = sync_dicts_loop cs dry_run ds (fold_left (sync_record cs dry_run) good acc).
Proof.
  revert acc. induction good as [|a good IH]; intros acc; [done|].
  simpl. rewrite read_assinante_to_dict. apply IH.
Qed.

Lemma sync_assinantes_dicts_to_dict assinantes dry_run st :
  sync_assinantes_dicts (to_dict <$> assinantes) dry_run st
  = sync_assinantes assinantes dry_run st.
Proof.
  unfold sync_assinantes_dicts, sync_assinantes.
  destruct (get_all_clientes st) as [[cs|] st1]; [|done].
  rewrite length_fmap, <- (app_nil_r (to_dict <$> assinantes)).
  rewrite sync_dicts_loop_to_dict. simpl.
  unfold initial_stats. by destruct (fold_left _ _ _).
Qed.

(** X8.  [to_dict] followed by the three subscripts of the loop gives the
    record back, so on the dictionaries [to_dict] produces the pass never
    meets a missing key: it does what [sync_assinantes] does on the
    records, with the same statistics, the same final state and the same
    trace. *)
Theorem sync_dicts_of_to_dict assinantes dry_run st :
  Forall (λ a, read_assinante (to_dict a) = Some a) assinantes
  ∧ sync_assinantes_dicts (to_dict <$> assinantes) dry_run st
    = sync_assinantes assinantes dry_run st.
Proof.
  split.
  - apply Forall_forall. intros a _. apply read_assinante_to_dict.
  - apply sync_assinantes_dicts_to_dict.
Qed.

(** X9.  A dictionary lacking [nome], [plano] or [status] makes the pass
    raise when the loop reaches it: no statistics are returned, the
    records after it are not looked at, and the records before it have
    been processed, their decisions logged and, in a live run, their
    writes sent. *)
Theorem sync_dicts_aborts_at_missing_key good bad rest dry_run st cs st1 :
  get_all_clientes st = (Returned cs, st1) →
  d_missing_key bad →
  ∃ st2 evs,
    sync_assinantes_dicts ((to_dict <$> good) ++ bad :: rest) dry_run st
      = (Raised, st2)
    ∧ trace st2 = trace st ++ DbSelect table :: evs
    ∧ decisions evs = decision cs <$> good
    ∧ writes evs = (if dry_run then [] else omap (write_for cs) good).
Proof.
  intros Hget Hbad. apply read_assinante_None in Hbad.
  unfold sync_assinantes_dicts. rewrite Hget, sync_dicts_loop_to_dict.
  simpl. rewrite Hbad.
  generalize (mk_stats (length ((to_dict <$> good) ++ bad :: rest))
                (length cs) 0 0 0 0 []).
  intros s0.
  destruct (sync_loop_post client getenv lower strip ratio self cs dry_run
              good s0 st1) as (evs & Htr & Hpost & _).
  exists (fold_left (sync_record cs dry_run) good (s0, st1)).2, evs.
  split; [done|].
  destruct Hpost as (_ & _ & _ & _ & _ & Hdec & Hwr & _).
  split; [|by split].
  rewrite Htr, (get_all_clientes_trace client self _ _ _ Hget).
  by rewrite <- app_assoc.
Qed.
End DictPass.

(** ** The extractor: rows, [filter_by_status], [get_statistics] *)

Section ExtractorFacts.
Variable lower : string → string.
Variable strip : string → string.

Local Abbreviation row_to_assinante := (row_to_assinante strip).
Local Abbreviation extract_rows := (extract_rows strip).
Local Abbreviation filter_by_status := (filter_by_status lower).

Lemma row_to_assinante_Some cols a :
  row_to_assinante cols = Some a
  ↔ ∃ c0 c1 c2 c3 more,
      cols = c0 :: c1 :: c2 :: c3 :: more
      ∧ truthy (cell_colspan c0) = false
      ∧ a = Assinante.make (strip (cell_text c0)) (strip (cell_text c1))
              (strip (cell_text c2)) (strip (cell_text c3)).
Proof.
  unfold row_to_assinante. split.
  - destruct cols as [|c0 [|c1 [|c2 [|c3 more]]]]; try done.
    destruct (truthy (cell_colspan c0)) eqn:E; [done|].
    intros [= <-]. by exists c0, c1, c2, c3, more.
  - intros (c0 & c1 & c2 & c3 & more & -> & Hc & ->). by rewrite Hc.
Qed.

Lemma row_to_assinante_is_Some cols :
  is_Some (row_to_assinante cols) ↔ is_data_row cols = true.
Proof.
  unfold row_to_assinante, is_data_row.
  destruct cols as [|c0 [|c1 [|c2 [|c3 more]]]];
    try (split; [intros [? [=]]|done]).
  destruct (truthy (cell_colspan c0)); simpl.
  - split; [intros [? [=]]|done].
  - split; [done|]. by eexists.
Qed.

(** X10.  The records extracted from the rows of a table are, in row
    order, those of the rows with at least four cells and no [colspan] on
    the first cell, built from the stripped text of the first four cells;
    all other rows are skipped.  No row is skipped for what its cells
    contain: rows that all have that shape give as many records as there
    are rows, blank cells or not. *)
Theorem extract_rows_data_rows rows :
  (∀ a, a ∈ extract_rows rows
        ↔ ∃ c0 c1 c2 c3 more,
            (c0 :: c1 :: c2 :: c3 :: more) ∈ rows
            ∧ truthy (cell_colspan c0) = false
            ∧ a = Assinante.make (strip (cell_text c0))
                    (strip (cell_text c1)) (strip (cell_text c2))
                    (strip (cell_text c3)))
  ∧ length (extract_rows rows) = count is_data_row rows
  ∧ (∀ more_rows,
       extract_rows (rows ++ more_rows)
       = extract_rows rows ++ extract_rows more_rows)
  ∧ (Forall (λ cols, is_data_row cols = true) rows →
     length (extract_rows rows) = length rows).
Proof.
  assert (Hlen : length (extract_rows rows) = count is_data_row rows).
  { unfold extract_rows. induction rows as [|cols rows IH]; [done|].
    rewrite count_cons. simpl.
    pose proof (row_to_assinante_is_Some cols) as Hs.
    destruct (row_to_assinante cols) as [a|]; destruct (is_data_row cols);
      simpl in *.
    - f_equal. exact IH.
    - destruct Hs as [Hs _]. by specialize (Hs (mk_is_Some _ _ eq_refl)).
    - destruct Hs as [_ Hs]. by destruct (Hs eq_refl).
    - exact IH. }
  split; [|split; [done|split]].
  - intros a. unfold extract_rows. rewrite list_elem_of_omap. split.
    + intros (cols & Hin & Hrow).
      apply row_to_assinante_Some in Hrow
        as (c0 & c1 & c2 & c3 & more & -> & Hc & ->).
      by exists c0, c1, c2, c3, more.
    + intros (c0 & c1 & c2 & c3 & more & Hin & Hc & ->).
      eexists. split; [exact Hin|]. apply row_to_assinante_Some.
      by exists c0, c1, c2, c3, more.
  - intros more_rows. apply omap_app.
  - intros Hall. rewrite Hlen. clear Hlen.
    induction Hall as [|cols rows Hc _ IH]; [done|].
    rewrite count_cons, Hc. simpl. by rewrite IH.
Qed.

(** X11.  [filter_by_status] keeps exactly the records whose status equals
    the given one up to [lower()]: each record of the list on its own is
    kept when it has that status and dropped otherwise, and the result for
    a concatenation is the concatenation of the results, so every
    occurrence of a record with that status is kept, repeated records
    included, in the original order, and nothing else is.  Hence the
    result has as many records as the list has records with that status,
    and filtering it again by the same status changes nothing. *)
Theorem filter_by_status_spec assinantes status :
  (∀ a, filter_by_status [a] status
        = if String.eqb (lower (Assinante.status a)) (lower status)
          then [a] else [])
  ∧ (∀ before after,
       filter_by_status (before ++ after) status
       = filter_by_status before status ++ filter_by_status after status)
  ∧ length (filter_by_status assinantes status)
    = count (λ a, String.eqb (lower (Assinante.status a)) (lower status))
        assinantes
  ∧ (∀ a, a ∈ filter_by_status assinantes status
          ↔ a ∈ assinantes ∧ lower (Assinante.status a) = lower status)
  ∧ sublist (filter_by_status assinantes status) assinantes
  ∧ (Forall (λ a, lower (Assinante.status a) = lower status) assinantes →
     filter_by_status assinantes status = assinantes)
  ∧ filter_by_status (filter_by_status assinantes status) status
    = filter_by_status assinantes status.
Proof.
  unfold filter_by_status.
  split; [done|]. split; [intros; apply List.filter_app|].
  split; [done|]. split; [|split; [|split]].
  - intros a. rewrite !list_elem_of_In, List.filter_In.
    by rewrite String.eqb_eq.
  - induction assinantes as [|a l IH]; [done|]. simpl.
    destruct (String.eqb _ _); by constructor.
  - intros Hall. induction Hall as [|a l Ha _ IH]; [done|]. simpl.
    apply String.eqb_eq in Ha. by rewrite Ha, IH.
  - induction assinantes as [|a l IH]; [done|]. simpl.
    destruct (String.eqb _ _) eqn:E; simpl; [|done].
    by rewrite E, IH.
Qed.
End ExtractorFacts.

Lemma sum_counts_bump (counts : gmap string nat) k :
  sum_counts (<[k := default 0 (counts !! k) + 1]> counts)
  = sum_counts counts + 1.
Proof.
  unfold sum_counts.
  destruct (counts !! k) as [v|] eqn:E; simpl.
  - rewrite <- insert_delete_eq.
    rewrite map_fold_insert_L; [|intros; lia|apply lookup_delete_eq].
    rewrite (map_fold_delete_L _ _ k v counts); [lia|intros; lia|done].
  - rewrite map_fold_insert_L; [lia|intros; lia|done].
Qed.

Lemma tally_fold_sum (key : Assinante.t → string) l
    (counts : gmap string nat) :
  sum_counts
    (fold_left (λ m a, <[key a := default 0 (m !! key a) + 1]> m) l counts)
  = sum_counts counts + length l.
Proof.
  revert counts. induction l as [|a l IH]; intros counts; simpl; [lia|].
  rewrite IH, sum_counts_bump. lia.
Qed.

Lemma tally_fold_lookup (key : Assinante.t → string) l
    (counts : gmap string nat) k :
  fold_left (λ m a, <[key a := default 0 (m !! key a) + 1]> m) l counts !! k
  = match counts !! k, count (λ a, String.eqb (key a) k) l with
    | None, 0 => None
    | o, n => Some (default 0 o + n)
    end.
Proof.
  revert counts. induction l as [|a l IH]; intros counts.
  - simpl. rewrite count_nil. destruct (counts !! k); [f_equal; simpl; lia|done].
  - simpl. rewrite IH, count_cons.
    destruct (String.eqb (key a) k) eqn:E.
    + apply String.eqb_eq in E. subst k. rewrite lookup_insert_eq.
      destruct (counts !! key a); simpl; f_equal; lia.
    + apply String.eqb_neq in E. by rewrite lookup_insert_ne.
Qed.

(** X12.  In the statistics of a list of records, [total] is the number of
    records; [por_status] has an entry exactly for the statuses that occur
    and maps each to its number of occurrences, compared exactly (no
    [lower()] here); the entries add up to [total]; and likewise for
    [por_plano] and the plans. *)
Theorem get_statistics_counts assinantes :
  total (get_statistics assinantes) = length assinantes
  ∧ (∀ s, por_status (get_statistics assinantes) !! s
          = match count (λ a, String.eqb (Assinante.status a) s) assinantes
            with
            | 0 => None
            | n => Some n
            end)
  ∧ (∀ p, por_plano (get_statistics assinantes) !! p
          = match count (λ a, String.eqb (Assinante.plano a) p) assinantes
            with
            | 0 => None
            | n => Some n
            end)
  ∧ sum_counts (por_status (get_statistics assinantes)) = length assinantes
  ∧ sum_counts (por_plano (get_statistics assinantes)) = length assinantes.
Proof.
  unfold get_statistics, tally. simpl.
  split; [done|]. split; [|split; [|split]].
  - intros s. rewrite tally_fold_lookup, lookup_empty. by destruct (count _ _).
  - intros p. rewrite tally_fold_lookup, lookup_empty. by destruct (count _ _).
  - rewrite tally_fold_sum. unfold sum_counts. by rewrite map_fold_empty.
  - rewrite tally_fold_sum. unfold sum_counts. by rewrite map_fold_empty.
Qed.

(** ** Configuration *)

Lemma py_or_truthy x y : truthy x = true → py_or x y = x.
Proof. unfold py_or. by intros ->. Qed.

Lemma py_or_empty y : py_or (Some "") y = py_or None y.
Proof. done. Qed.

Lemma truthy_Some x : truthy x = true ↔ ∃ s, x = Some s ∧ s ≠ "".
Proof.
  split.
  - destruct x as [[|a s]|]; try done. intros _. by eexists.
  - intros (s & -> & Hs). by destruct s.
Qed.

(** X13.  [SupabaseIntegration.__init__] raises exactly when the URL or the
    key is missing from both the argument and the environment (an empty
    string counting as missing) or [create_client] raises.  For each of the
    six arguments, whatever the other five, passing the empty string
    behaves like passing nothing.  When all six arguments are non-empty
    the result does not depend on the environment. *)
Theorem SupabaseIntegration_init_arguments {W : Type}
    (create_client : string → string → outcome (Client W))
    (getenv : string → option string)
    (url key table_name column_nome column_plano column_status : option string) :
  let init := SupabaseIntegration_init create_client getenv in
  (init url key table_name column_nome column_plano column_status = Raised
   ↔ truthy (py_or url (getenv "SUPABASE_URL")) = false
     ∨ truthy (py_or key (getenv "SUPABASE_SERVICE_KEY")) = false
     ∨ create_client (default "" (py_or url (getenv "SUPABASE_URL")))
         (default "" (py_or key (getenv "SUPABASE_SERVICE_KEY"))) = Raised)
  ∧ (init (Some "") key table_name column_nome column_plano column_status
     = init None key table_name column_nome column_plano column_status
     ∧ init url (Some "") table_name column_nome column_plano column_status
       = init url None table_name column_nome column_plano column_status
     ∧ init url key (Some "") column_nome column_plano column_status
       = init url key None column_nome column_plano column_status
     ∧ init url key table_name (Some "") column_plano column_status
       = init url key table_name None column_plano column_status
     ∧ init url key table_name column_nome (Some "") column_status
       = init url key table_name column_nome None column_status
     ∧ init url key table_name column_nome column_plano (Some "")
       = init url key table_name column_nome column_plano None)
  ∧ (truthy url = true → truthy key = true → truthy table_name = true →
     truthy column_nome = true → truthy column_plano = true →
     truthy column_status = true →
     ∀ getenv',
       init url key table_name column_nome column_plano column_status
       = SupabaseIntegration_init create_client getenv' url key table_name
           column_nome column_plano column_status).
Proof.
  intros init. subst init. split; [|split].
  - unfold SupabaseIntegration_init.
    destruct (truthy (py_or url _)), (truthy (py_or key _)); simpl;
      try (split; [auto|done]).
    destruct (create_client _ _); split; try done; auto.
    intros [|[|]]; done.
  - unfold SupabaseIntegration_init, or_getenv_default.
    rewrite !py_or_empty. by repeat split.
  - intros Hu Hk Ht Hn Hp Hs getenv'.
    unfold SupabaseIntegration_init, or_getenv_default.
    by rewrite !py_or_truthy.
Qed.

(** X14.  A [SyncConfig] built from the command line has a non-empty
    e-mail and password, each taken from its argument when that is
    non-empty and from the environment otherwise, and carries the three
    flags unchanged; the construction raises exactly when one of the two
    credentials is found in neither place. *)
Theorem SyncConfig_from_args_spec getenv args :
  match SyncConfig_from_args getenv args with
  | Returned c =>
      SyncConfig.cashbarber_email c ≠ ""
      ∧ SyncConfig.cashbarber_password c ≠ ""
      ∧ py_or (args_email args) (getenv "CASHBARBER_EMAIL")
        = Some (SyncConfig.cashbarber_email c)
      ∧ py_or (args_password args) (getenv "CASHBARBER_PASSWORD")
        = Some (SyncConfig.cashbarber_password c)
      ∧ SyncConfig.headless c = args_headless args
      ∧ SyncConfig.dry_run c = args_dry_run args
      ∧ SyncConfig.direto c = args_direto args
  | Raised =>
      truthy (py_or (args_email args) (getenv "CASHBARBER_EMAIL")) = false
      ∨ truthy (py_or (args_password args) (getenv "CASHBARBER_PASSWORD"))
        = false
  end.
Proof.
  unfold SyncConfig_from_args, SyncConfig_init. simpl.
  destruct (truthy (py_or (args_email args) _)) eqn:He; simpl; [|by left].
  destruct (truthy (py_or (args_password args) _)) eqn:Hp; simpl; [|by right].
  apply truthy_Some in He as (e & -> & He).
  apply truthy_Some in Hp as (pw & -> & Hp). by repeat split.
Qed.

(** ** [run_sync] *)

Section OrchestratorFacts.
Context {B D W : Type}.
Variable browser : Browser B D.
Variable create_client : string → string → outcome (Client W).
Variable getenv : string → option string.
Variable lower : string → string.
Variable strip : string → string.
Variable ratio : string → string → Q.

Local Abbreviation extract_from_driver := (extract_from_driver browser strip).
Local Abbreviation sync_from_data :=
  (sync_from_data create_client getenv lower strip ratio).
Local Abbreviation run_sync :=
  (run_sync browser create_client getenv lower strip ratio).
Local Abbreviation login config rs :=
  (login_cashbarber browser (SyncConfig.cashbarber_email config)
     (SyncConfig.cashbarber_password config) (SyncConfig.headless config)
     (browser_state rs)).
Local Abbreviation navigate config :=
  (if SyncConfig.direto config then navigate_direto browser
   else navigate_to_quantidade_assinantes browser).

(** The run, stage by stage. *)
Lemma run_sync_cases config (rs : run_state B W) :
  let nav := navigation_stage (SyncConfig.direto config) in
  match login config rs with
  | (Raised, b) =>
      run_sync config rs
      = (1, mk_run_state b (database rs) (stages rs ++ [StLogin]))
  | (Returned driver, b1) =>
      match navigate config driver b1 with
      | (Raised, b2) =>
          run_sync config rs
          = (1, mk_run_state (quit browser driver b2) (database rs)
                  (stages rs ++ [StLogin; nav; StQuit]))
      | (Returned _, b2) =>
          match load_table_rows browser driver b2 with
          | (Raised, b3) =>
              run_sync config rs
              = (1, mk_run_state (quit browser driver b3) (database rs)
                      (stages rs ++ [StLogin; nav; StExtract; StQuit]))
          | (Returned rows, b3) =>
              let pass :=
                sync_from_data (to_dict <$> extract_rows strip rows)
                  (SyncConfig.dry_run config) (database rs) in
              run_sync config rs
              = (match pass.1 with Returned _ => 0 | Raised => 1 end,
                 mk_run_state (quit browser driver b3) pass.2
                   (stages rs ++ [StLogin; nav; StExtract; StSync; StQuit]))
          end
      end
  end.
Proof.
  unfold run_sync, extract_from_driver, leave, navigation_stage. simpl.
  destruct (login_cashbarber _ _ _ _ _) as [[driver|] b1]; [|done].
  destruct (SyncConfig.direto config).
  - destruct (navigate_direto _ _ _) as [[[]|] b2]; simpl;
      [|by rewrite <- !app_assoc].
    destruct (load_table_rows _ _ _) as [[rows|] b3]; simpl;
      [|by rewrite <- !app_assoc].
    destruct (sync_from_data _ _ _) as [[stats|] db]; simpl;
      by rewrite <- !app_assoc.
  - destruct (navigate_to_quantidade_assinantes _ _ _) as [[[]|] b2]; simpl;
      [|by rewrite <- !app_assoc].
    destruct (load_table_rows _ _ _) as [[rows|] b3]; simpl;
      [|by rewrite <- !app_assoc].
    destruct (sync_from_data _ _ _) as [[stats|] db]; simpl;
      by rewrite <- !app_assoc.
Qed.


(** X16.  [run_sync] returns 0 or 1, and it returns 0 exactly when the
    login, the navigation and the loading of the table returned and
    [sync_from_data] returned statistics, whatever those statistics say:
    failed updates counted under [erros] do not change the exit code. *)
Theorem run_sync_exit_code config (rs : run_state B W) :
  ((run_sync config rs).1 = 0 ∨ (run_sync config rs).1 = 1)
  ∧ ((run_sync config rs).1 = 0
     ↔ ∃ driver b1 u b2 rows b3 stats db,
         login config rs = (Returned driver, b1)
         ∧ navigate config driver b1 = (Returned u, b2)
         ∧ load_table_rows browser driver b2 = (Returned rows, b3)
         ∧ sync_from_data (to_dict <$> extract_rows strip rows)
             (SyncConfig.dry_run config) (database rs)
           = (Returned stats, db)).
Proof.
  pose proof (run_sync_cases config rs) as H. simpl in H.
  destruct (login_cashbarber _ _ _ _ _) as [[driver|] b1] eqn:Hlogin.
  - destruct (navigate config driver b1) as [[u|] b2] eqn:Hnav.
    + destruct (load_table_rows _ _ _) as [[rows|] b3] eqn:Hload.
      * destruct (sync_from_data _ _ _) as [[stats|] db] eqn:Hsync;
          rewrite H; simpl.
        -- split; [by left|]. split; [|done]. intros _.
           by exists driver, b1, u, b2, rows, b3, stats, db.
        -- split; [by right|]. split; [done|].
           intros (? & ? & ? & ? & ? & ? & ? & ? & [= <- <-] & E0 & E1 & E2).
           rewrite Hnav in E0. injection E0 as <- <-.
           rewrite Hload in E1. injection E1 as <- <-. by rewrite Hsync in E2.
      * rewrite H. simpl. split; [by right|]. split; [done|].
        intros (? & ? & ? & ? & ? & ? & ? & ? & [= <- <-] & E0 & E1 & _).
        rewrite Hnav in E0. injection E0 as <- <-. by rewrite Hload in E1.
    + rewrite H. simpl. split; [by right|]. split; [done|].
      intros (? & ? & ? & ? & ? & ? & ? & ? & [= <- <-] & E0 & _).
      by rewrite Hnav in E0.
  - rewrite H. simpl. split; [by right|]. split; [done|].
    by intros (? & ? & ? & ? & ? & ? & ? & ? & [=] & _).
Qed.

(** X17.  When the browser stages return and the environment configures
    the integration, what [run_sync] does to the database is what
    [sync_assinantes] does on the records extracted from the table rows
    (the dictionaries in between lose nothing and never miss a key), the
    browser is closed, and the exit code is 0 exactly when that pass
    returned statistics. *)
Theorem run_sync_pass config (rs : run_state B W)
    driver b1 u b2 rows b3 self client :
  login config rs = (Returned driver, b1) →
  navigate config driver b1 = (Returned u, b2) →
  load_table_rows browser driver b2 = (Returned rows, b3) →
  SupabaseIntegration_init create_client getenv None None None None None None
    = Returned (self, client) →
  let pass :=
    sync_assinantes client getenv lower strip ratio self
      (extract_rows strip rows) (SyncConfig.dry_run config) (database rs) in
  database (run_sync config rs).2 = pass.2
  ∧ browser_state (run_sync config rs).2 = quit browser driver b3
  ∧ ((run_sync config rs).1 = 0 ↔ ∃ stats, pass.1 = Returned stats)
  ∧ ((run_sync config rs).1 = 1 ↔ pass.1 = Raised).
Proof.
  intros Hlogin Hnav Hload Hinit pass.
  pose proof (run_sync_cases config rs) as H. simpl in H.
  rewrite Hlogin, Hnav, Hload in H. rewrite H. clear H. simpl.
  unfold sync_from_data. rewrite Hinit.
  rewrite sync_assinantes_dicts_to_dict. fold pass.
  split; [done|]. split; [done|].
  destruct (pass.1) as [stats|]; split.
  - split; [by eexists|done].
  - done.
  - split; [done|]. by intros [? [=]].
  - done.
Qed.
End OrchestratorFacts.

(** ** The further properties on concrete inputs *)

Lemma get_all_clientes_one_per_row_witness :
  let st := Sample.healthy in
  select_all MemoryService.client
    (SupabaseIntegration.table_name Sample.self) (service st)
  = (Returned Sample.table_rows, service st)
  ∧ ((∀ cs,
        get_all_clientes MemoryService.client Sample.self st
        = (Returned cs,
           mk_state (service st)
             (trace st
                ++ [DbSelect (SupabaseIntegration.table_name Sample.self)]))
        ↔ Forall2 (reflects Sample.self) Sample.table_rows cs)
     ∧ (get_all_clientes MemoryService.client Sample.self st
        = (Raised,
           mk_state (service st)
             (trace st
                ++ [DbSelect (SupabaseIntegration.table_name Sample.self)]))
        ↔ Exists (λ row, row !! "id" = None) Sample.table_rows)).
Proof.
  intros st.
  assert (Hsel : select_all MemoryService.client
                   (SupabaseIntegration.table_name Sample.self) (service st)
                 = (Returned Sample.table_rows, service st))
    by reflexivity.
  split; [exact Hsel|].
  exact (get_all_clientes_one_per_row MemoryService.client Sample.self st
           Sample.table_rows (service st) Hsel).
Defined.

Lemma sync_aborts_when_fetch_fails_witness :
  let st := Scenario.row_without_id in
  let table := SupabaseIntegration.table_name Sample.self in
  ((select_all MemoryService.client table (service st)).1 = Raised
   ∨ (∃ data,
        (select_all MemoryService.client table (service st)).1 = Returned data
        ∧ Exists (λ row, row !! "id" = None) data))
  ∧ Sample.sync Sample.scraped false st
    = (Raised,
       mk_state (select_all MemoryService.client table (service st)).2
         (trace st ++ [DbSelect table])).
Proof.
  intros st table.
  assert (Hfail :
    (select_all MemoryService.client table (service st)).1 = Raised
    ∨ (∃ data,
         (select_all MemoryService.client table (service st)).1 = Returned data
         ∧ Exists (λ row, row !! "id" = None) data)).
  { right. eexists. split; [reflexivity|].
    apply Exists_cons_tl, Exists_cons_hd. vm_compute. reflexivity. }
  split; [exact Hfail|].
  exact (sync_aborts_when_fetch_fails MemoryService.client Sample.getenv
           Py.lower Py.strip Py.ratio Sample.self Sample.scraped false st
           Hfail).
Defined.

Lemma sync_decisions_and_writes_witness :
  let st := Sample.second_fails in
  let cs := Sample.snapshot in
  let assinantes := Sample.scraped in
  Sample.fetch st = (Returned cs, (Sample.fetch st).2)
  ∧ ∃ stats st2 evs,
      Sample.sync assinantes false st = (Returned stats, st2)
      ∧ trace st2
        = trace st
            ++ DbSelect (SupabaseIntegration.table_name Sample.self) :: evs
      ∧ decisions evs
        = decision Py.lower Py.strip Py.ratio cs <$> assinantes
      ∧ writes evs
        = (if false then []
           else omap (write_for Sample.getenv Py.lower Py.strip Py.ratio
                        Sample.self cs) assinantes)
      ∧ count is_request evs = count is_update evs.
Proof.
  intros st cs assinantes. split; [exact fetch_second_fails|].
  exact (sync_decisions_and_writes MemoryService.client Sample.getenv
           Py.lower Py.strip Py.ratio Sample.self assinantes false st cs
           (Sample.fetch st).2 fetch_second_fails).
Defined.

Lemma sync_matching_statistics_witness :
  let st := Sample.second_fails in
  let cs := Sample.snapshot in
  let assinantes := Sample.scraped in
  Sample.fetch st = (Returned cs, (Sample.fetch st).2)
  ∧ ∃ stats st2,
      Sample.sync assinantes false st = (Returned stats, st2)
      ∧ total_supabase stats = length cs
      ∧ encontrados stats
        = count (has_match Py.lower Py.strip Py.ratio cs) assinantes
      ∧ nao_encontrados_lista stats
        = Assinante.nome <$>
            List.filter
              (λ a, bool_decide
                      (find_cliente_by_name Py.lower Py.strip Py.ratio
                         (Assinante.nome a) cs default_threshold = None))
              assinantes.
Proof.
  intros st cs assinantes. split; [exact fetch_second_fails|].
  exact (sync_matching_statistics MemoryService.client Sample.getenv
           Py.lower Py.strip Py.ratio Sample.self assinantes false st cs
           (Sample.fetch st).2 fetch_second_fails).
Defined.

Lemma sync_dicts_aborts_at_missing_key_witness :
  let st := Sample.healthy in
  let cs := Sample.snapshot in
  let good := [Sample.assinante "Joao Silva" "Mensal" "ativo"] in
  let bad := Scenario.dict_without_plano in
  let rest := [to_dict (Sample.assinante "Maria Souza" "Anual" "ativo")] in
  Sample.fetch st = (Returned cs, (Sample.fetch st).2)
  ∧ d_missing_key bad
  ∧ ∃ st2 evs,
      sync_assinantes_dicts Sample.getenv Py.lower Py.strip Py.ratio
        MemoryService.client Sample.self
        ((to_dict <$> good) ++ bad :: rest) false st
      = (Raised, st2)
      ∧ trace st2
        = trace st
            ++ DbSelect (SupabaseIntegration.table_name Sample.self) :: evs
      ∧ decisions evs = decision Py.lower Py.strip Py.ratio cs <$> good
      ∧ writes evs
        = (if false then []
           else omap (write_for Sample.getenv Py.lower Py.strip Py.ratio
                        Sample.self cs) good).
Proof.
  intros st cs good bad rest.
  assert (Hbad : d_missing_key bad) by (right; left; reflexivity).
  split; [exact fetch_healthy|]. split; [exact Hbad|].
  exact (sync_dicts_aborts_at_missing_key MemoryService.client Sample.getenv
           Py.lower Py.strip Py.ratio Sample.self good bad rest false st cs
           (Sample.fetch st).2 fetch_healthy Hbad).
Defined.

Lemma run_sync_pass_witness :
  let rs := Scenario.start in
  let config := Scenario.config in
  let pass :=
    sync_assinantes MemoryService.client Scenario.getenv Py.lower Py.strip
      Py.ratio Scenario.integration
      (extract_rows Py.strip Scenario.report_rows)
      (SyncConfig.dry_run config) (database rs) in
  let r :=
    run_sync Scenario.browser Scenario.create_client Scenario.getenv
      Py.lower Py.strip Py.ratio config rs in
  login_cashbarber Scenario.browser (SyncConfig.cashbarber_email config)
    (SyncConfig.cashbarber_password config) (SyncConfig.headless config)
    (browser_state rs)
  = (Returned tt, ["login"])
  ∧ (if SyncConfig.direto config then navigate_direto Scenario.browser
     else navigate_to_quantidade_assinantes Scenario.browser) tt ["login"]
    = (Returned tt, ["login"; "get relatorio19"])
  ∧ load_table_rows Scenario.browser tt ["login"; "get relatorio19"]
    = (Returned Scenario.report_rows,
       ["login"; "get relatorio19"; "page_source"])
  ∧ SupabaseIntegration_init Scenario.create_client Scenario.getenv
      None None None None None None
    = Returned (Scenario.integration, MemoryService.client)
  ∧ (database r.2 = pass.2
     ∧ browser_state r.2
       = quit Scenario.browser tt
           ["login"; "get relatorio19"; "page_source"]
     ∧ (r.1 = 0 ↔ ∃ stats, pass.1 = Returned stats)
     ∧ (r.1 = 1 ↔ pass.1 = Raised)).
Proof.
  intros rs config pass r.
  split; [reflexivity|]. split; [reflexivity|]. split; [reflexivity|].
  split; [reflexivity|].
  exact (run_sync_pass Scenario.browser Scenario.create_client
           Scenario.getenv Py.lower Py.strip Py.ratio config rs tt ["login"]
           tt ["login"; "get relatorio19"] Scenario.report_rows
           ["login"; "get relatorio19"; "page_source"]
           Scenario.integration MemoryService.client
           eq_refl eq_refl eq_refl eq_refl).
Defined.

(** The whole scenario: exit code 0, one of the two subscribers matched and
    written, the browser asked to log in, go to the report, give the page
    and quit. *)
Example run_sync_scenario :
  let r :=
    run_sync Scenario.browser Scenario.create_client Scenario.getenv
      Py.lower Py.strip Py.ratio Scenario.config Scenario.start in
  r.1 = 0
  ∧ browser_state r.2 = ["login"; "get relatorio19"; "page_source"; "quit"]
  ∧ stages r.2 = [StLogin; StNavigateDireto; StExtract; StSync; StQuit]
  ∧ decisions (trace (database r.2))
    = [("Joao Silva", Some "Joao Silva"); ("Ana Costa", None)]
  ∧ outcomes (trace (database r.2)) = [true].
Proof. vm_compute. by repeat split. Qed.

(** X18.  [sync_from_data] configures itself from the environment alone:
    when [SUPABASE_URL] or [SUPABASE_SERVICE_KEY] is unset or empty it
    raises before any request is sent, leaving the service and the trace
    as they were, whatever the records and the mode. *)
Theorem sync_from_data_unconfigured {W : Type}
    (create_client : string → string → outcome (Client W))
    (getenv : string → option string) (lower strip : string → string)
    (ratio : string → string → Q)
    (assinantes_data : list (gmap string string)) (dry_run : bool)
    (st : state W) :
  truthy (getenv "SUPABASE_URL") = false
  ∨ truthy (getenv "SUPABASE_SERVICE_KEY") = false →
  sync_from_data create_client getenv lower strip ratio assinantes_data
    dry_run st
  = (Raised, st).
Proof.
  intros Hmissing. unfold sync_from_data, SupabaseIntegration_init.
  change (py_or None (getenv "SUPABASE_URL")) with (getenv "SUPABASE_URL").
  change (py_or None (getenv "SUPABASE_SERVICE_KEY"))
    with (getenv "SUPABASE_SERVICE_KEY").
  by destruct Hmissing as [-> | ->]; rewrite ?orb_true_r.
Qed.

Lemma sync_from_data_unconfigured_witness :
  (truthy (Sample.getenv "SUPABASE_URL") = false
   ∨ truthy (Sample.getenv "SUPABASE_SERVICE_KEY") = false)
  ∧ sync_from_data Scenario.create_client Sample.getenv Py.lower Py.strip
      Py.ratio (to_dict <$> Sample.scraped) false Sample.healthy
    = (Raised, Sample.healthy).
Proof.
  assert (Hmissing : truthy (Sample.getenv "SUPABASE_URL") = false
                     ∨ truthy (Sample.getenv "SUPABASE_SERVICE_KEY") = false)
    by (left; reflexivity).
  split; [exact Hmissing|].
  exact (sync_from_data_unconfigured Scenario.create_client Sample.getenv
           Py.lower Py.strip Py.ratio (to_dict <$> Sample.scraped) false
           Sample.healthy Hmissing).
Defined.
